(** * Tender marketplace API: routes, store and authorization gate

    A shallow embedding of the Express/knex backend:
    - [routes/applications]  (POST /applications, PATCH /applications/:id/status)
    - [routes/tenders]       (GET /tenders, POST /tenders, PUT /tenders/:id)
    - [routes/auth]          (POST /auth/register)
    - [routes/search]        (GET /search/companies, GET /search/tenders)
    - [middleware/auth]      (authenticateToken)

    A handler is a function from the request (credential, parameters, body),
    the server clock and the store to a reply and the next store.  Tables are
    lists of rows in storage order.  Strings are byte strings; dates are
    milliseconds since the epoch; JSON numbers are rationals. *)

From Stdlib Require Import String Ascii List ZArith QArith Bool Lia.
From Stdlib Require Import Sorting.Sorted.
Import ListNotations.
Local Open Scope Z_scope.
Local Open Scope string_scope.

(** ** JSON envelope *)

(** The detail Joi reports for the first failing key. *)
Inductive joi_rule : Type :=
| any_required
| any_only
| string_empty
| string_min (n : nat)
| string_length (n : nat)
| string_guid
| string_email
| number_positive
| date_greater
| object_unknown.

Record joi_error : Type := { path : string; rule : joi_rule }.

(** [error: { message }] holds either a fixed text of the handler or
    [error.details[0].message] of the validator. *)
Inductive message : Type :=
| Text (s : string)
| Details (e : joi_error).

(** [res.status(code).json({ success, data | error })]. *)
Inductive reply (A : Type) : Type :=
| Success (code : Z) (data : A)
| Failure (code : Z) (error : message).

Arguments Success {A} code data.
Arguments Failure {A} code error.

Definition code_of {A} (r : reply A) : Z :=
  match r with Success c _ => c | Failure c _ => c end.

Definition internal_error {A} : reply A :=
  Failure 500 (Text "Internal server error").

(** A JSON value under a key no schema names. *)
Inductive jvalue : Type :=
| JNull
| JBool (b : bool)
| JNum (q : Q)
| JStr (s : string).

(** ** Validator combinators (Joi, first error wins) *)

(** [{ error, value }] of [schema.validate]. *)
Definition validation (A : Type) : Type := (joi_error + A)%type.

Definition valid {A} (a : A) : validation A := inr a.

Definition invalid {A} (key : string) (r : joi_rule) : validation A :=
  inl {| path := key; rule := r |}.

Notation "x <- c ;; k" :=
  (match c with inl e => inl e | inr x => k end)
  (at level 61, c at next level, right associativity).

Notation "c ;;; k" :=
  (match c with inl e => inl e | inr _ => k end)
  (at level 61, right associativity).

Definition check (key : string) (r : joi_rule) (holds : bool) : validation unit :=
  if holds then valid tt else invalid key r.

(** [.required()]: the key must be present. *)
Definition required {A} (key : string) (v : option A) : validation A :=
  match v with Some a => valid a | None => invalid key any_required end.

(** [.optional()]: an absent key passes. *)
Definition optional {A} (rule_of : A -> validation unit) (v : option A)
  : validation unit :=
  match v with Some a => rule_of a | None => valid tt end.

(** [Joi.string()]: the empty string is refused. *)
Definition joi_string (key : string) (s : string) : validation unit :=
  check key string_empty (negb (String.length s =? 0)%nat).

(** [Joi.string().min(n)]. *)
Definition joi_string_min (key : string) (n : nat) (s : string)
  : validation unit :=
  joi_string key s ;;; check key (string_min n) (n <=? String.length s)%nat.

(** [Joi.string().length(n)]. *)
Definition joi_string_length (key : string) (n : nat) (s : string)
  : validation unit :=
  joi_string key s ;;; check key (string_length n) (String.length s =? n)%nat.

(** [Joi.string().valid(...)]: only the listed values pass. *)
Definition joi_string_valid (key : string) (allowed : list string) (s : string)
  : validation unit :=
  check key any_only (existsb (String.eqb s) allowed).

Definition positive_number (q : Q) : bool := (0 <? Qnum q)%Z.

(** [Joi.number().positive()]. *)
Definition joi_number_positive (key : string) (q : Q) : validation unit :=
  check key number_positive (positive_number q).

(** [Joi.date().greater('now')]. *)
Definition joi_date_greater_now (key : string) (now : Z) (d : Z)
  : validation unit :=
  check key date_greater (now <? d)%Z.

(** [Joi.array().items(Joi.string())]. *)
Definition joi_array_of_strings (key : string) (items : list string)
  : validation unit :=
  check key string_empty
    (forallb (fun s => negb (String.length s =? 0)%nat) items).

(** Keys outside the schema: [Joi.object] refuses the first one. *)
Definition joi_unknown (extra : list (string * jvalue)) : validation unit :=
  match extra with
  | [] => valid tt
  | (key, _) :: _ => invalid key object_unknown
  end.

(** [v || d] on an optional string. *)
Definition or_default (v : option string) (d : string) : string :=
  match v with Some s => s | None => d end.

(** JavaScript truthiness of an optional string. *)
Definition truthy (v : option string) : bool :=
  match v with
  | Some s => negb (String.length s =? 0)%nat
  | None => false
  end.

(** The string behind a truthy optional value. *)
Definition if_truthy (v : option string) : option string :=
  if truthy v then v else None.

(** ** Store *)

Definition id : Type := string.

Record user_row : Type := {
  user_id : id;
  user_email : string;
  user_password_hash : string;
  user_created_at : Z
}.

Record company_row : Type := {
  co_id : id;
  co_user_id : id;
  co_name : string;
  co_industry : option string;
  co_description : option string;
  co_logo_url : option string;
  co_created_at : Z
}.

Record goods_service_row : Type := {
  gs_id : id;
  gs_company_id : id;
  gs_name : string;
  gs_description : option string;
  gs_category : option string;
  gs_tags : list string
}.

Record tender_row : Type := {
  t_id : id;
  t_company_id : id;
  t_title : string;
  t_description : string;
  t_budget : option Q;
  t_currency : string;
  t_deadline : Z;
  t_requirements : option (list (string * jvalue));
  t_attachments : option (list string);
  t_status : string;
  t_created_at : Z;
  t_updated_at : Z
}.

Record application_row : Type := {
  a_id : id;
  a_tender_id : id;
  a_company_id : id;
  a_proposal : string;
  a_quoted_price : option Q;
  a_currency : string;
  a_attachments : list string;  (* stored as the JSON text of the list *)
  a_status : string;
  a_submitted_at : Z;
  a_updated_at : Z
}.

Record database : Type := {
  users : list user_row;
  companies : list company_row;
  goods_services : list goods_service_row;
  tenders : list tender_row;
  applications : list application_row
}.

Definition with_tenders (db : database) (ts : list tender_row) : database :=
  {| users := users db; companies := companies db;
     goods_services := goods_services db;
     tenders := ts; applications := applications db |}.

Definition with_applications (db : database) (apps : list application_row)
  : database :=
  {| users := users db; companies := companies db;
     goods_services := goods_services db;
     tenders := tenders db; applications := apps |}.

(** [.first()]: the first row the query yields, if any. *)
Definition first {A} (rows : list A) : option A := hd_error rows.

(** ** Authorization gate (middleware/auth) *)

Record UserPayload : Type := {
  payload_id : id;
  payload_email : string;
  companyId : option id
}.

(** What the [Authorization] header carries, after [jwt.verify]. *)
Inductive credential : Type :=
| NoToken
| InvalidToken
| Bearer (user : UserPayload).

(** A route handler: reads and writes the store, sends one reply. *)
Definition handler (A : Type) : Type := database -> reply A * database.

Definition respond {A} (r : reply A) : handler A := fun db => (r, db).

Definition authenticateToken {A} (c : credential)
  (next : UserPayload -> handler A) : handler A :=
  match c with
  | NoToken => respond (Failure 401 (Text "Access token required"))
  | InvalidToken => respond (Failure 403 (Text "Invalid or expired token"))
  | Bearer user => next user
  end.

(** ** Query builder (knex over SQL) *)

(** [a LEFT JOIN b ON on a b]: every row of [a], paired with each matching
    row of [b], or with NULL when none matches. *)
Definition left_join {A B} (on : A -> B -> bool) (a : list A) (b : list B)
  : list (A * option B) :=
  flat_map
    (fun x =>
       match filter (on x) b with
       | [] => [(x, None)]
       | matches => map (fun y => (x, Some y)) matches
       end)
    a.

(** A builder call adds one condition to the WHERE clause: [.where] joins it
    with AND, [.orWhere] with OR. *)
Inductive connective : Type := AND | OR.

Definition clause (R : Type) : Type := (connective * (R -> bool))%type.

(** The clause is emitted in call order without parentheses, and SQL reads
    [a AND b OR c] as [(a AND b) OR c]. *)
Fixpoint disjuncts {R} (acc : bool) (cs : list (clause R)) (r : R) : bool :=
  match cs with
  | [] => acc
  | (AND, p) :: rest => disjuncts (acc && p r) rest r
  | (OR, p) :: rest => acc || disjuncts (p r) rest r
  end.

Definition sql_where {R} (cs : list (clause R)) (r : R) : bool :=
  match cs with
  | [] => true
  | (_, p) :: rest => disjuncts (p r) rest r
  end.

(** [ORDER BY key ASC]; rows with equal keys keep their storage order. *)
Fixpoint insert_by {A} (le : A -> A -> bool) (x : A) (rows : list A) : list A :=
  match rows with
  | [] => [x]
  | y :: rest => if le x y then x :: rows else y :: insert_by le x rest
  end.

Definition order_by {A} (le : A -> A -> bool) (rows : list A) : list A :=
  fold_right (insert_by le) [] rows.

(** [.limit(n).offset(k)]: a negative offset is refused by the builder and
    a negative limit by the engine (PostgreSQL); the awaited promise
    rejects. *)
Definition limit_offset {A} (limit offset : Z) (rows : list A)
  : option (list A) :=
  if ((limit <? 0) || (offset <? 0))%Z then None
  else Some (firstn (Z.to_nat limit) (skipn (Z.to_nat offset) rows)).

(** [parseInt(x) || d]: NaN and 0 give the default. *)
Definition or_number (v : option Z) (d : Z) : Z :=
  match v with
  | None => d
  | Some n => if (n =? 0)%Z then d else n
  end.

Definition lower (c : ascii) : ascii :=
  if (Ascii.leb "A" c && Ascii.leb c "Z")%bool
  then ascii_of_nat (nat_of_ascii c + 32)
  else c.

(** SQL [LIKE]: [%] matches any run of characters, [_] any one, and a
    backslash takes the next character literally.  A pattern that ends in
    a lone backslash is an error of the engine; the patterns of the routes
    end in [%], and it matches nothing here. *)
Fixpoint like (pattern text : list ascii) {struct pattern} : bool :=
  match pattern with
  | [] => match text with [] => true | _ :: _ => false end
  | c :: pattern' =>
      if Ascii.eqb c "%" then
        (fix any_run (t : list ascii) : bool :=
           like pattern' t
           || match t with [] => false | _ :: t' => any_run t' end) text
      else if Ascii.eqb c "\" then
        match pattern', text with
        | e :: pattern'', d :: text' => Ascii.eqb e d && like pattern'' text'
        | _, _ => false
        end
      else
        match text with
        | [] => false
        | d :: text' =>
            (Ascii.eqb c "_" || Ascii.eqb c d) && like pattern' text'
        end
  end.

(** [column ILIKE pattern], case folded on ASCII letters. *)
Definition ilike (column pattern : string) : bool :=
  like (map lower (list_ascii_of_string pattern))
       (map lower (list_ascii_of_string column)).

(** A NULL column matches nothing. *)
Definition ilike_null (column : option string) (pattern : string) : bool :=
  match column with
  | Some text => ilike text pattern
  | None => false
  end.

(** The template literal [`%${q}%`]. *)
Definition containing (q : string) : string := "%" ++ q ++ "%".

(** ** routes/applications *)

Module Applications.

Record application_body : Type := {
  tenderId : option string;
  proposal : option string;
  quotedPrice : option Q;
  currency : option string;
  attachments : option (list string);
  extra : list (string * jvalue)
}.

(** The validated value: required keys present, defaults filled in. *)
Record application_value : Type := {
  v_tenderId : string;
  v_proposal : string;
  v_quotedPrice : option Q;
  v_currency : string;
  v_attachments : option (list string)
}.

Record status_body : Type := {
  status : option string;
  status_extra : list (string * jvalue)
}.

(** Modelled from the spec: the column default of [applications.status],
    set by a migration that is not among the sources ("application created
    with status submitted"). *)
Definition default_application_status : string := "submitted".

Section Routes.

(** Joi's GUID test on a string. *)
Variable guid : string -> bool.

Definition createApplicationSchema (body : application_body)
  : validation application_value :=
  t <- required "tenderId" (tenderId body) ;;
  joi_string "tenderId" t ;;;
  check "tenderId" string_guid (guid t) ;;;
  p <- required "proposal" (proposal body) ;;
  joi_string_min "proposal" 50 p ;;;
  optional (joi_number_positive "quotedPrice") (quotedPrice body) ;;;
  optional (joi_string_length "currency" 3) (currency body) ;;;
  optional (joi_array_of_strings "attachments") (attachments body) ;;;
  joi_unknown (extra body) ;;;
  valid {| v_tenderId := t; v_proposal := p;
           v_quotedPrice := quotedPrice body;
           v_currency := or_default (currency body) "USD";
           v_attachments := attachments body |}.

Definition updateApplicationStatusSchema (body : status_body)
  : validation string :=
  s <- required "status" (status body) ;;
  joi_string_valid "status"
    ["submitted"; "under_review"; "accepted"; "rejected"] s ;;;
  joi_unknown (status_extra body) ;;;
  valid s.

(** [.where({ tender_id, company_id })] on [applications]. *)
Definition applied (tender company : id) (a : application_row) : bool :=
  (a_tender_id a =? tender) && (a_company_id a =? company).

(** [router.post('/')]: submit an application.  [now] is the server clock,
    [fresh] the identifier the store gives the new row. *)
Definition post_applications (now : Z) (fresh : id) (c : credential)
  (body : application_body) : handler application_row :=
  authenticateToken c (fun user db =>
    match createApplicationSchema body with
    | inl e => (Failure 400 (Details e), db)
    | inr value =>
      match if_truthy (companyId user) with
      | None => (Failure 400 (Text "No company associated with user"), db)
      | Some company =>
        match first (filter (fun t => t_id t =? v_tenderId value) (tenders db)) with
        | None => (Failure 404 (Text "Tender not found"), db)
        | Some tender =>
          if negb (t_status tender =? "open") then
            (Failure 400 (Text "Tender is not open for applications"), db)
          else if (t_deadline tender <? now)%Z then
            (Failure 400 (Text "Tender deadline has passed"), db)
          else
            match first (filter (applied (v_tenderId value) company)
                           (applications db)) with
            | Some _ =>
                (Failure 409 (Text "Company has already applied to this tender"), db)
            | None =>
                let application :=
                  {| a_id := fresh;
                     a_tender_id := v_tenderId value;
                     a_company_id := company;
                     a_proposal := v_proposal value;
                     a_quoted_price := v_quotedPrice value;
                     a_currency := v_currency value;
                     a_attachments :=
                       match v_attachments value with
                       | Some l => l
                       | None => []
                       end;
                     a_status := default_application_status;
                     a_submitted_at := now;
                     a_updated_at := now |} in
                (Success 201 application,
                 with_applications db (applications db ++ [application]))
            end
        end
      end
    end).

(** [applications LEFT JOIN tenders ON applications.tender_id = tenders.id]
    restricted to the application [id] and to tenders of [company]. *)
Definition owned_application (app company : id) (db : database)
  : option application_row :=
  first
    (flat_map
       (fun a =>
          if a_id a =? app then
            map (fun _ => a)
              (filter (fun t => (t_id t =? a_tender_id a)
                                && (t_company_id t =? company))
                 (tenders db))
          else [])
       (applications db)).

(** [.where('id', id).update({ status, updated_at })]. *)
Definition set_status (app : id) (s : string) (now : Z) (a : application_row)
  : application_row :=
  if a_id a =? app then
    {| a_id := a_id a; a_tender_id := a_tender_id a;
       a_company_id := a_company_id a; a_proposal := a_proposal a;
       a_quoted_price := a_quoted_price a; a_currency := a_currency a;
       a_attachments := a_attachments a;
       a_status := s;
       a_submitted_at := a_submitted_at a;
       a_updated_at := now |}
  else a.

(** [router.patch('/:id/status')]: the reply carries the first updated row. *)
Definition patch_application_status (now : Z) (c : credential) (app : id)
  (body : status_body) : handler (option application_row) :=
  authenticateToken c (fun user db =>
    match updateApplicationStatusSchema body with
    | inl e => (Failure 400 (Details e), db)
    | inr s =>
      match if_truthy (companyId user) with
      | None => (Failure 400 (Text "No company associated with user"), db)
      | Some company =>
        match owned_application app company db with
        | None =>
            (Failure 404 (Text "Application not found or access denied"), db)
        | Some _ =>
            let updated := map (set_status app s now) (applications db) in
            (Success 200 (first (filter (fun a => a_id a =? app) updated)),
             with_applications db updated)
        end
      end
    end).

End Routes.

(** Newest submission first ([ORDER BY submitted_at DESC]). *)
Definition newest_first {B} (x y : application_row * B) : bool :=
  (a_submitted_at (fst y) <=? a_submitted_at (fst x))%Z.

(** [router.get('/tender/:tenderId')]: the applications to a tender of the
    caller's company, each with the applying company. *)
Definition get_tender_applications (c : credential) (tender : id)
  : handler (list (application_row * option company_row)) :=
  authenticateToken c (fun user db =>
    match if_truthy (companyId user) with
    | None => (Failure 400 (Text "No company associated with user"), db)
    | Some company =>
      match first (filter (fun t => (t_id t =? tender)
                                    && (t_company_id t =? company))
                     (tenders db)) with
      | None => (Failure 404 (Text "Tender not found or access denied"), db)
      | Some _ =>
          (Success 200
             (order_by newest_first
                (filter (fun r => a_tender_id (fst r) =? tender)
                   (left_join (fun a co => a_company_id a =? co_id co)
                      (applications db) (companies db)))),
           db)
      end
    end).

(** [applications LEFT JOIN tenders LEFT JOIN companies] on the tender of
    the application and on the company of that tender. *)
Definition with_tender_and_owner (db : database)
  : list (application_row * (option tender_row * option company_row)) :=
  map (fun r => (fst (fst r), (snd (fst r), snd r)))
    (left_join
       (fun (r : application_row * option tender_row) co =>
          match snd r with
          | Some t => t_company_id t =? co_id co
          | None => false
          end)
       (left_join (fun a t => a_tender_id a =? t_id t)
          (applications db) (tenders db))
       (companies db)).

(** [router.get('/company/mine')]: the applications of the caller's
    company, each with its tender and the tender's company. *)
Definition get_my_applications (c : credential)
  : handler (list (application_row * (option tender_row * option company_row))) :=
  authenticateToken c (fun user db =>
    match if_truthy (companyId user) with
    | None => (Failure 400 (Text "No company associated with user"), db)
    | Some company =>
        (Success 200
           (order_by newest_first
              (filter (fun r => a_company_id (fst r) =? company)
                 (with_tender_and_owner db))),
         db)
    end).

(** A row of [router.get('/:id')]: the application, its tender, the
    applying company and the company of the tender. *)
Definition application_view : Type :=
  (((application_row * option tender_row) * option company_row)
   * option company_row)%type.

Definition view_application (r : application_view) : application_row :=
  fst (fst (fst r)).

Definition view_tender (r : application_view) : option tender_row :=
  snd (fst (fst r)).

(** [applications LEFT JOIN tenders LEFT JOIN companies AS
    applicant_company LEFT JOIN companies AS tender_company]. *)
Definition application_views (db : database) : list application_view :=
  left_join
    (fun (r : (application_row * option tender_row) * option company_row) co =>
       match snd (fst r) with
       | Some t => t_company_id t =? co_id co
       | None => false
       end)
    (left_join
       (fun (r : application_row * option tender_row) co =>
          a_company_id (fst r) =? co_id co)
       (left_join (fun a t => a_tender_id a =? t_id t)
          (applications db) (tenders db))
       (companies db))
    (companies db).

(** The WHERE clause of [router.get('/:id')]: the application [app], for
    its applicant or for the owner of its tender. *)
Definition visible_to (app company : id) : list (clause application_view) :=
  [ (AND, fun r => a_id (view_application r) =? app);
    (AND, sql_where
            [ (AND, fun r => a_company_id (view_application r) =? company);
              (OR, fun r =>
                     match view_tender r with
                     | Some t => t_company_id t =? company
                     | None => false
                     end) ]) ].

(** [router.get('/:id')]: one application, for its applicant and for the
    owner of its tender. *)
Definition get_application (c : credential) (app : id)
  : handler application_view :=
  authenticateToken c (fun user db =>
    match if_truthy (companyId user) with
    | None => (Failure 400 (Text "No company associated with user"), db)
    | Some company =>
      match first (filter (sql_where (visible_to app company))
                     (application_views db)) with
      | None =>
          (Failure 404 (Text "Application not found or access denied"), db)
      | Some application => (Success 200 application, db)
      end
    end).

End Applications.

(** ** routes/tenders *)

Module Tenders.

(** The JSON body of POST and PUT, key by key. *)
Record tender_body : Type := {
  title : option string;
  description : option string;
  budget : option Q;
  currency : option string;
  deadline : option Z;
  requirements : option (list (string * jvalue));
  attachments : option (list string);
  status : option string;
  extra : list (string * jvalue)
}.

(** The validated value of [createTenderSchema]. *)
Record tender_value : Type := {
  v_title : string;
  v_description : string;
  v_budget : option Q;
  v_currency : string;
  v_deadline : Z;
  v_requirements : option (list (string * jvalue));
  v_attachments : option (list string)
}.

Record tenders_query : Type := {
  q_page : option Z;
  q_limit : option Z;
  q_status : option string;
  q_search : option string
}.

Record pagination : Type := {
  page : Z;
  limit : Z;
  total : Z;
  pages : Z
}.

Record tenders_page : Type := {
  listed : list (tender_row * option company_row);
  paging : pagination
}.

(** Modelled from the spec: the column default of [tenders.status], set by
    a migration that is not among the sources ("newly created tenders are
    listed under the default filter when no status is given"). *)
Definition default_tender_status : string := "open".

(** [createTenderSchema] names no [status] key: a body that carries one is
    refused like any other unknown key. *)
Definition createTenderSchema (now : Z) (body : tender_body)
  : validation tender_value :=
  t <- required "title" (title body) ;;
  joi_string_min "title" 5 t ;;;
  d <- required "description" (description body) ;;
  joi_string_min "description" 20 d ;;;
  optional (joi_number_positive "budget") (budget body) ;;;
  optional (joi_string_length "currency" 3) (currency body) ;;;
  dl <- required "deadline" (deadline body) ;;
  joi_date_greater_now "deadline" now dl ;;;
  optional (joi_array_of_strings "attachments") (attachments body) ;;;
  optional (fun _ => invalid "status" object_unknown) (status body) ;;;
  joi_unknown (extra body) ;;;
  valid {| v_title := t; v_description := d;
           v_budget := budget body;
           v_currency := or_default (currency body) "USD";
           v_deadline := dl;
           v_requirements := requirements body;
           v_attachments := attachments body |}.

(** [updateTenderSchema]: every key optional, no defaults; the value has the
    keys of the body. *)
Definition updateTenderSchema (now : Z) (body : tender_body)
  : validation tender_body :=
  optional (joi_string_min "title" 5) (title body) ;;;
  optional (joi_string_min "description" 20) (description body) ;;;
  optional (joi_number_positive "budget") (budget body) ;;;
  optional (joi_string_length "currency" 3) (currency body) ;;;
  optional (joi_date_greater_now "deadline" now) (deadline body) ;;;
  optional (joi_array_of_strings "attachments") (attachments body) ;;;
  optional (joi_string_valid "status" ["draft"; "open"; "closed"; "awarded"])
    (status body) ;;;
  joi_unknown (extra body) ;;;
  valid body.

Definition ceil_div (a b : Z) : Z := (- ((- a) / b))%Z.

Definition by_deadline (x y : tender_row * option company_row) : bool :=
  (t_deadline (fst x) <=? t_deadline (fst y))%Z.

(** The WHERE clause built by [router.get('/')]. *)
Definition listing_clauses (q : tenders_query)
  : list (clause (tender_row * option company_row)) :=
  (AND, fun r => t_status (fst r) =? or_default (if_truthy (q_status q)) "open")
  :: match if_truthy (q_search q) with
     | Some search =>
         [ (AND, fun r => ilike (t_title (fst r)) (containing search));
           (OR, fun r => ilike (t_description (fst r)) (containing search)) ]
     | None => []
     end.

(** [router.get('/')]: one page of tenders and the count of the status. *)
Definition get_tenders (q : tenders_query) : handler tenders_page :=
  fun db =>
    let page := or_number (q_page q) 1 in
    let limit := or_number (q_limit q) 10 in
    let joined :=
      left_join (fun t c => t_company_id t =? co_id c) (tenders db) (companies db) in
    let offset := ((page - 1) * limit)%Z in
    let count :=
      Z.of_nat
        (List.length
           (filter (fun t => t_status t =? or_default (if_truthy (q_status q)) "open")
              (tenders db))) in
    match limit_offset limit offset
            (order_by by_deadline (filter (sql_where (listing_clauses q)) joined))
    with
    | None => (internal_error, db)
    | Some rows =>
        (Success 200
           {| listed := rows;
              paging := {| page := page; limit := limit; total := count;
                           pages := ceil_div count limit |} |},
         db)
    end.

(** [router.post('/')]: create a tender for the caller's company. *)
Definition post_tenders (now : Z) (fresh : id) (c : credential)
  (body : tender_body) : handler tender_row :=
  authenticateToken c (fun user db =>
    match createTenderSchema now body with
    | inl e => (Failure 400 (Details e), db)
    | inr value =>
      match if_truthy (companyId user) with
      | None => (Failure 400 (Text "No company associated with user"), db)
      | Some company =>
          let tender :=
            {| t_id := fresh;
               t_company_id := company;
               t_title := v_title value;
               t_description := v_description value;
               t_budget := v_budget value;
               t_currency := v_currency value;
               t_deadline := v_deadline value;
               t_requirements := v_requirements value;
               t_attachments := v_attachments value;
               t_status := default_tender_status;
               t_created_at := now;
               t_updated_at := now |} in
          (Success 201 tender, with_tenders db (tenders db ++ [tender]))
      end
    end).

(** A key of the value replaces the column; an absent key leaves it. *)
Definition replace {A} (v : option A) (old : A) : A :=
  match v with Some a => a | None => old end.

Definition replace_opt {A} (v : option A) (old : option A) : option A :=
  match v with Some a => Some a | None => old end.

(** [.where('id', id).update({ ...value, updated_at })] on one row. *)
Definition update_tender (tender : id) (value : tender_body) (now : Z)
  (t : tender_row) : tender_row :=
  if t_id t =? tender then
    {| t_id := t_id t;
       t_company_id := t_company_id t;
       t_title := replace (title value) (t_title t);
       t_description := replace (description value) (t_description t);
       t_budget := replace_opt (budget value) (t_budget t);
       t_currency := replace (currency value) (t_currency t);
       t_deadline := replace (deadline value) (t_deadline t);
       t_requirements := replace_opt (requirements value) (t_requirements t);
       t_attachments := replace_opt (attachments value) (t_attachments t);
       t_status := replace (status value) (t_status t);
       t_created_at := t_created_at t;
       t_updated_at := now |}
  else t.

(** [.where({ id, company_id })] on [tenders]. *)
Definition owned (tender company : id) (t : tender_row) : bool :=
  (t_id t =? tender) && (t_company_id t =? company).

(** [router.put('/:id')]: the reply carries the first updated row. *)
Definition put_tender (now : Z) (c : credential) (tender : id)
  (body : tender_body) : handler (option tender_row) :=
  authenticateToken c (fun user db =>
    match updateTenderSchema now body with
    | inl e => (Failure 400 (Details e), db)
    | inr value =>
      match if_truthy (companyId user) with
      | None => (Failure 400 (Text "No company associated with user"), db)
      | Some company =>
        match first (filter (owned tender company) (tenders db)) with
        | None => (Failure 404 (Text "Tender not found or access denied"), db)
        | Some _ =>
            let updated := map (update_tender tender value now) (tenders db) in
            (Success 200 (first (filter (fun t => t_id t =? tender) updated)),
             with_tenders db updated)
        end
      end
    end).

(** [{ ...tender, applicationCount }]. *)
Record tender_details : Type := {
  detail : tender_row * option company_row;
  applicationCount : Z
}.

(** [router.get('/:id')]: a tender with its company and the number of
    applications to it. *)
Definition get_tender (tender : id) : handler tender_details :=
  fun db =>
    match first
            (filter (fun r : tender_row * option company_row =>
                       t_id (fst r) =? tender)
               (left_join (fun t c => t_company_id t =? co_id c)
                  (tenders db) (companies db))) with
    | None => (Failure 404 (Text "Tender not found"), db)
    | Some r =>
        (Success 200
           {| detail := r;
              applicationCount :=
                Z.of_nat
                  (List.length
                     (filter (fun a => a_tender_id a =? tender)
                        (applications db))) |},
         db)
    end.

(** Latest creation first ([ORDER BY created_at DESC]). *)
Definition latest_first (x y : tender_row) : bool :=
  (t_created_at y <=? t_created_at x)%Z.

(** [router.get('/company/mine')]: the tenders of the caller's company. *)
Definition get_my_tenders (c : credential) : handler (list tender_row) :=
  authenticateToken c (fun user db =>
    match if_truthy (companyId user) with
    | None => (Failure 400 (Text "No company associated with user"), db)
    | Some company =>
        (Success 200
           (order_by latest_first
              (filter (fun t => t_company_id t =? company) (tenders db))),
         db)
    end).

End Tenders.

(** ** routes/auth *)

Module Auth.

Record register_body : Type := {
  email : option string;
  password : option string;
  companyName : option string;
  industry : option string;
  description : option string;
  extra : list (string * jvalue)
}.

Record register_value : Type := {
  v_email : string;
  v_password : string;
  v_companyName : string;
  v_industry : string;
  v_description : option string
}.

(** [{ token, user: { id, email }, company }]. *)
Record registered : Type := {
  token : string;
  account : id * string;
  company : company_row
}.

(** What the store does with each statement of the transaction: a
    statement that fails (constraint violation, lost connection) rejects the
    awaited promise. *)
Record faults : Type := {
  insert_user_fails : bool;
  insert_company_fails : bool;
  commit_fails : bool
}.

Definition with_users (db : database) (us : list user_row) : database :=
  {| users := us; companies := companies db;
     goods_services := goods_services db;
     tenders := tenders db; applications := applications db |}.

Definition with_companies (db : database) (cs : list company_row) : database :=
  {| users := users db; companies := cs;
     goods_services := goods_services db;
     tenders := tenders db; applications := applications db |}.

(** [db.transaction(async trx => ...)]: the statements run on [trx]; when
    the callback resolves, the transaction commits, and when it rejects (or
    the commit fails) it rolls back to the store as it was. *)
Definition transaction {A} (work : database -> option (A * database))
  (commit_ok : bool) (db : database) : option A * database :=
  match work db with
  | Some (a, trx) => if commit_ok then (Some a, trx) else (None, db)
  | None => (None, db)
  end.

Definition insert_user (fails : bool) (u : user_row) (trx : database)
  : option (user_row * database) :=
  if fails then None else Some (u, with_users trx (users trx ++ [u])).

Definition insert_company (fails : bool) (c : company_row) (trx : database)
  : option (company_row * database) :=
  if fails then None else Some (c, with_companies trx (companies trx ++ [c])).

Section Routes.

(** Joi's e-mail test, [bcrypt.hash(password, rounds)] and [jwt.sign] on the
    payload [{ id, email, companyId }]. *)
Variable email_ok : string -> bool.
Variable bcrypt_hash : string -> nat -> string.
Variable jwt_sign : UserPayload -> string.

Definition registerSchema (body : register_body) : validation register_value :=
  e <- required "email" (email body) ;;
  joi_string "email" e ;;;
  check "email" string_email (email_ok e) ;;;
  p <- required "password" (password body) ;;
  joi_string_min "password" 8 p ;;;
  n <- required "companyName" (companyName body) ;;
  joi_string_min "companyName" 2 n ;;;
  i <- required "industry" (industry body) ;;
  joi_string_min "industry" 2 i ;;;
  optional (joi_string "description") (description body) ;;;
  joi_unknown (extra body) ;;;
  valid {| v_email := e; v_password := p; v_companyName := n;
           v_industry := i; v_description := description body |}.

(** [router.post('/register')].  [fresh_user] and [fresh_company] are the
    identifiers the store gives the two rows. *)
Definition post_register (now : Z) (fresh_user fresh_company : id)
  (f : faults) (body : register_body) : handler registered :=
  fun db =>
    match registerSchema body with
    | inl e => (Failure 400 (Details e), db)
    | inr value =>
      match first (filter (fun u => user_email u =? v_email value) (users db)) with
      | Some _ =>
          (Failure 409 (Text "User with this email already exists"), db)
      | None =>
          let saltRounds := 12%nat in
          let passwordHash := bcrypt_hash (v_password value) saltRounds in
          let result :=
            transaction
              (fun trx =>
                 match insert_user (insert_user_fails f)
                         {| user_id := fresh_user;
                            user_email := v_email value;
                            user_password_hash := passwordHash;
                            user_created_at := now |} trx with
                 | None => None
                 | Some (user, trx1) =>
                   match insert_company (insert_company_fails f)
                           {| co_id := fresh_company;
                              co_user_id := user_id user;
                              co_name := v_companyName value;
                              co_industry := Some (v_industry value);
                              co_description := v_description value;
                              co_logo_url := None;
                              co_created_at := now |} trx1 with
                   | None => None
                   | Some (company, trx2) => Some ((user, company), trx2)
                   end
                 end)
              (negb (commit_fails f)) db in
          match result with
          | (None, db') => (internal_error, db')
          | (Some (user, company), db') =>
              (Success 201
                 {| token :=
                      jwt_sign {| payload_id := user_id user;
                                  payload_email := user_email user;
                                  companyId := Some (co_id company) |};
                    account := (user_id user, user_email user);
                    company := company |},
               db')
          end
      end
    end.

End Routes.

Record login_body : Type := {
  login_email : option string;
  login_password : option string;
  login_extra : list (string * jvalue)
}.

(** [{ id, name, industry, description }] of the company in a session. *)
Record company_summary : Type := {
  summary_id : id;
  summary_name : string;
  summary_industry : option string;
  summary_description : option string
}.

(** [{ token, user: { id, email }, company | null }]. *)
Record session : Type := {
  session_token : string;
  session_account : id * string;
  session_company : option company_summary
}.

Section Sessions.

(** Joi's e-mail test, [bcrypt.compare(password, hash)] and [jwt.sign]. *)
Variable email_ok : string -> bool.
Variable bcrypt_compare : string -> string -> bool.
Variable jwt_sign : UserPayload -> string.

Definition loginSchema (body : login_body) : validation (string * string) :=
  e <- required "email" (login_email body) ;;
  joi_string "email" e ;;;
  check "email" string_email (email_ok e) ;;;
  p <- required "password" (login_password body) ;;
  joi_string "password" p ;;;
  joi_unknown (login_extra body) ;;;
  valid (e, p).

(** [users LEFT JOIN companies ON users.id = companies.user_id] restricted
    to the e-mail. *)
Definition find_account (email : string) (db : database)
  : option (user_row * option company_row) :=
  first
    (filter (fun r : user_row * option company_row =>
               user_email (fst r) =? email)
       (left_join (fun u c => user_id u =? co_user_id c)
          (users db) (companies db))).

(** [router.post('/login')]. *)
Definition post_login (body : login_body) : handler session :=
  fun db =>
    match loginSchema body with
    | inl e => (Failure 400 (Details e), db)
    | inr (email, password) =>
      match find_account email db with
      | None => (Failure 401 (Text "Invalid email or password"), db)
      | Some (user, company) =>
          let isValidPassword :=
            bcrypt_compare password (user_password_hash user) in
          if negb isValidPassword then
            (Failure 401 (Text "Invalid email or password"), db)
          else
            (Success 200
               {| session_token :=
                    jwt_sign {| payload_id := user_id user;
                                payload_email := user_email user;
                                companyId := option_map co_id company |};
                  session_account := (user_id user, user_email user);
                  session_company :=
                    match company with
                    | Some c =>
                        if truthy (Some (co_id c)) then
                          Some {| summary_id := co_id c;
                                  summary_name := co_name c;
                                  summary_industry := co_industry c;
                                  summary_description := co_description c |}
                        else None
                    | None => None
                    end |},
             db)
      end
    end.

End Sessions.

End Auth.

(** ** routes/search *)

Module Search.

Record search_query : Type := {
  q : option string;
  industry : option string;
  status : option string;
  q_page : option Z;
  q_limit : option Z
}.

(** The selected columns of [companies]. *)
Record company_card : Type := {
  card_id : id;
  card_name : string;
  card_industry : option string;
  card_description : option string;
  card_logo_url : option string;
  card_created_at : Z
}.

Record pagination : Type := {
  page : Z;
  limit : Z;
  hasMore : bool
}.

Record companies_page : Type := {
  found_companies : list (company_card * list goods_service_row);
  companies_paging : pagination
}.

Record tenders_page : Type := {
  found_tenders : list (tender_row * option company_row);
  tenders_paging : pagination
}.

Definition card_of (c : company_row) : company_card :=
  {| card_id := co_id c; card_name := co_name c;
     card_industry := co_industry c; card_description := co_description c;
     card_logo_url := co_logo_url c; card_created_at := co_created_at c |}.

Definition card_eq_dec (x y : company_card) : {x = y} + {x <> y}.
Proof.
  decide equality;
    try apply Z.eq_dec; try apply string_dec;
    decide equality; apply string_dec.
Defined.

(** [SELECT DISTINCT]. *)
Definition distinct (cards : list company_card) : list company_card :=
  nodup card_eq_dec cards.

Definition by_name (x y : company_card) : bool :=
  String.leb (card_name x) (card_name y).

Definition by_deadline (x y : tender_row * option company_row) : bool :=
  (t_deadline (fst x) <=? t_deadline (fst y))%Z.

(** [.where(function () { this.where(..).orWhere(..) ... })]: the inner
    conditions form one parenthesised group. *)
Definition grouped {R} (inner : list (clause R)) : clause R :=
  (AND, sql_where inner).

(** The rows [router.get('/companies')] selects, before paging. *)
Definition matching_companies (s : search_query) (db : database)
  : list company_card :=
  let joined :=
    match if_truthy (q s) with
    | Some _ =>
        left_join (fun c g => co_id c =? gs_company_id g)
          (companies db) (goods_services db)
    | None => map (fun c => (c, None)) (companies db)
    end in
  let by_text :=
    match if_truthy (q s) with
    | Some query =>
        [ grouped
            [ (AND, fun r : company_row * option goods_service_row =>
                      ilike (co_name (fst r)) (containing query));
              (OR, fun r => ilike_null (co_description (fst r)) (containing query));
              (OR, fun r =>
                     match snd r with
                     | Some g => ilike (gs_name g) (containing query)
                     | None => false
                     end);
              (OR, fun r =>
                     match snd r with
                     | Some g => ilike_null (gs_description g) (containing query)
                     | None => false
                     end) ] ]
    | None => []
    end in
  let by_industry :=
    match if_truthy (industry s) with
    | Some i =>
        [ (AND, fun r : company_row * option goods_service_row =>
                  ilike_null (co_industry (fst r)) (containing i)) ]
    | None => []
    end in
  order_by by_name
    (distinct
       (map (fun r => card_of (fst r))
          (filter (sql_where (by_text ++ by_industry)) joined))).

(** [router.get('/companies')]. *)
Definition get_search_companies (s : search_query) : handler companies_page :=
  fun db =>
    let page := or_number (q_page s) 1 in
    let limit := or_number (q_limit s) 10 in
    if negb (truthy (q s)) && negb (truthy (industry s)) then
      (Failure 400 (Text "Search query or industry filter is required"), db)
    else
      let offset := ((page - 1) * limit)%Z in
      match limit_offset limit offset (matching_companies s db) with
      | None => (internal_error, db)
      | Some companies =>
          let companiesWithServices :=
            map (fun company =>
                   (company,
                    firstn 5
                      (filter (fun g => gs_company_id g =? card_id company)
                         (goods_services db))))
              companies in
          (Success 200
             {| found_companies := companiesWithServices;
                companies_paging :=
                  {| page := page; limit := limit;
                     hasMore := (Z.of_nat (List.length companies) =? limit)%Z |} |},
           db)
      end.



Definition option_string_dec (x y : option string) : {x = y} + {x <> y}.
Proof. decide equality. apply string_dec. Defined.

(** [router.get('/industries')]: the distinct industries of the companies
    that have one, in ascending order. *)
Definition get_industries : handler (list string) :=
  fun db =>
    (Success 200
       (order_by String.leb
          (nodup string_dec
             (flat_map
                (fun c =>
                   match co_industry c with
                   | Some i => [i]
                   | None => []
                   end)
                (companies db)))),
     db).

(** [SELECT category, COUNT( * ) FROM goods_services GROUP BY category]. *)
Definition category_counts (db : database) : list (option string * nat) :=
  map (fun k =>
         (k, count_occ option_string_dec
               (map gs_category (goods_services db)) k))
    (nodup option_string_dec (map gs_category (goods_services db))).

Definition most_used_first (x y : option string * nat) : bool :=
  (snd y <=? snd x)%nat.

Definition recent_first (x y : tender_row) : bool :=
  (t_created_at y <=? t_created_at x)%Z.

(** [router.get('/suggestions')]: the ten most used categories of goods
    and services for [type=companies], the titles of the ten most recent
    open tenders otherwise. *)
Definition get_suggestions (type : option string)
  : handler (list (option string)) :=
  fun db =>
    if match type with Some t => t =? "companies" | None => false end then
      (Success 200
         (map fst (firstn 10 (order_by most_used_first (category_counts db)))),
       db)
    else
      (Success 200
         (map (fun t => Some (t_title t))
            (firstn 10
               (order_by recent_first
                  (filter (fun t => t_status t =? "open") (tenders db))))),
       db).

End Search.

(** ** Invariants of the store *)

(** The pair an application row is filed under. *)
Definition pair_of (a : application_row) : id * id :=
  (a_tender_id a, a_company_id a).

(** At most one application per (tender, company) pair. *)
Definition one_per_pair (apps : list application_row) : Prop :=
  NoDup (map pair_of apps).

Definition has_application (tender company : id) (apps : list application_row)
  : Prop :=
  exists a, In a apps /\ a_tender_id a = tender /\ a_company_id a = company.

(** A stored budget, when present, is positive. *)
Definition budgets_positive (ts : list tender_row) : Prop :=
  forall t q, In t ts -> t_budget t = Some q -> positive_number q = true.

(** No tender with this id belongs to the company: either the id does not
    resolve or the tender is somebody else's. *)
Definition not_owned_by (company tender : id) (db : database) : Prop :=
  forall t, In t (tenders db) -> t_id t = tender -> t_company_id t <> company.

(** The id does not resolve. *)
Definition absent (tender : id) (db : database) : Prop :=
  forall t, In t (tenders db) -> t_id t <> tender.

Definition caller_does_not_own (c : credential) (tender : id) (db : database)
  : Prop :=
  match c with
  | Bearer user =>
      match if_truthy (companyId user) with
      | Some company => not_owned_by company tender db
      | None => True
      end
  | _ => True
  end.

(** The body carries a key the schema does not name. *)
Definition carries (key : string) (extra : list (string * jvalue)) : Prop :=
  exists v, In (key, v) extra.


(** Both rows of a registration are in the store, at the ends of their
    tables, the company pointing at the account. *)
Definition registered_both (before after : database) : Prop :=
  exists u c,
    users after = (users before ++ [u])%list /\
    companies after = (companies before ++ [c])%list /\
    co_user_id c = user_id u /\
    goods_services after = goods_services before /\
    tenders after = tenders before /\
    applications after = applications before.

(** The rows are in the order of [le], each next to its successor. *)
Definition ordered {A} (le : A -> A -> bool) : list A -> Prop :=
  Sorted (fun x y => le x y = true).

Definition total_order {A} (le : A -> A -> bool) : Prop :=
  forall x y, le x y = true \/ le y x = true.

(** The rows of [after] are those of [before], one for one, with at most
    the status and the update stamp of the application [app] changed. *)
Definition only_status_changed (app : id)
  (before after : list application_row) : Prop :=
  Forall2
    (fun a a' =>
       a_id a' = a_id a /\
       a_tender_id a' = a_tender_id a /\
       a_company_id a' = a_company_id a /\
       a_proposal a' = a_proposal a /\
       a_quoted_price a' = a_quoted_price a /\
       a_currency a' = a_currency a /\
       a_attachments a' = a_attachments a /\
       a_submitted_at a' = a_submitted_at a /\
       (a_id a <> app -> a' = a))
    before after.

(** The rows of [after] are those of [before], one for one: no tender
    changes its id, its company or its creation stamp, and the tenders with
    another id than [tender] are as they were. *)
Definition same_tenders_but (tender : id) (before after : list tender_row)
  : Prop :=
  Forall2
    (fun t t' =>
       t_id t' = t_id t /\
       t_company_id t' = t_company_id t /\
       t_created_at t' = t_created_at t /\
       (t_id t <> tender -> t' = t))
    before after.

(** No two accounts share an e-mail. *)
Definition emails_unique (db : database) : Prop :=
  NoDup (map user_email (users db)).

(** ** Scenarios *)

Module Scenario.

Definition guid (s : string) : bool := (String.length s =? 36)%nat.

Definition tender_T : id := "7d9f2c1e-4b8a-4f6d-9c3e-2a1b5d7e9f01".
Definition company_A : id := "a0a0a0a0-0000-4000-8000-00000000000a".
Definition company_B : id := "b0b0b0b0-0000-4000-8000-00000000000b".
Definition application_1 : id := "c1c1c1c1-0000-4000-8000-000000000001".
Definition application_2 : id := "c2c2c2c2-0000-4000-8000-000000000002".

Definition owner_A : UserPayload :=
  {| payload_id := "user-a"; payload_email := "a@x.com";
     companyId := Some company_A |}.

Definition bidder_B : UserPayload :=
  {| payload_id := "user-b"; payload_email := "b@x.com";
     companyId := Some company_B |}.

Definition long_proposal : string :=
  "We will deliver the full scope within eight weeks at the quoted price.".

(** A tender of A with deadline 2000; the clock of the scenarios reads 1000. *)
Definition tender_with (status : string) (deadline : Z) : tender_row :=
  {| t_id := tender_T; t_company_id := company_A;
     t_title := "Bridge repair";
     t_description := "Repair of the steel bridge deck and railings";
     t_budget := None; t_currency := "USD"; t_deadline := deadline;
     t_requirements := None; t_attachments := None;
     t_status := status; t_created_at := 0; t_updated_at := 0 |}.

Definition application_of_B (status : string) : application_row :=
  {| a_id := application_1; a_tender_id := tender_T;
     a_company_id := company_B; a_proposal := long_proposal;
     a_quoted_price := None; a_currency := "USD"; a_attachments := [];
     a_status := status; a_submitted_at := 900; a_updated_at := 900 |}.

Definition store (ts : list tender_row) (apps : list application_row)
  : database :=
  {| users := []; companies := []; goods_services := [];
     tenders := ts; applications := apps |}.

Definition apply_to_T : Applications.application_body :=
  {| Applications.tenderId := Some tender_T;
     Applications.proposal := Some long_proposal;
     Applications.quotedPrice := None;
     Applications.currency := None;
     Applications.attachments := None;
     Applications.extra := [] |}.

Definition set_to (s : string) : Applications.status_body :=
  {| Applications.status := Some s; Applications.status_extra := [] |}.

Definition no_keys : Tenders.tender_body :=
  {| Tenders.title := None; Tenders.description := None;
     Tenders.budget := None; Tenders.currency := None;
     Tenders.deadline := None; Tenders.requirements := None;
     Tenders.attachments := None; Tenders.status := None;
     Tenders.extra := [] |}.

Definition status_only (s : string) : Tenders.tender_body :=
  {| Tenders.title := None; Tenders.description := None;
     Tenders.budget := None; Tenders.currency := None;
     Tenders.deadline := None; Tenders.requirements := None;
     Tenders.attachments := None; Tenders.status := Some s;
     Tenders.extra := [] |}.

(** A creation body with the given budget and unknown keys. *)
Definition new_tender (budget : option Q) (extra : list (string * jvalue))
  : Tenders.tender_body :=
  {| Tenders.title := Some "Bridge repair";
     Tenders.description := Some "Repair of the steel bridge deck and railings";
     Tenders.budget := budget; Tenders.currency := None;
     Tenders.deadline := Some 2000%Z; Tenders.requirements := None;
     Tenders.attachments := None; Tenders.status := None;
     Tenders.extra := extra |}.

Definition listing (status search : option string) : Tenders.tenders_query :=
  {| Tenders.q_page := None; Tenders.q_limit := None;
     Tenders.q_status := status; Tenders.q_search := search |}.

Definition search_for (q industry : option string) (page limit : option Z)
  : Search.search_query :=
  {| Search.q := q; Search.industry := industry; Search.status := None;
     Search.q_page := page; Search.q_limit := limit |}.

Definition company_row_A : company_row :=
  {| co_id := company_A; co_user_id := "user-a"; co_name := "Acme Steel";
     co_industry := Some "Construction"; co_description := None;
     co_logo_url := None; co_created_at := 0 |}.

Definition company_row_B : company_row :=
  {| co_id := company_B; co_user_id := "user-b"; co_name := "Birch Steelworks";
     co_industry := Some "Construction"; co_description := None;
     co_logo_url := None; co_created_at := 0 |}.

(** Two companies and two open tenders of A. *)
Definition market : database :=
  {| users := []; companies := [company_row_A; company_row_B];
     goods_services := [];
     tenders := [tender_with "open" 2000; tender_with "open" 3000];
     applications := [] |}.

Definition sign_up : Auth.register_body :=
  {| Auth.email := Some "a@x.com"; Auth.password := Some "correct horse";
     Auth.companyName := Some "Acme Steel";
     Auth.industry := Some "Construction";
     Auth.description := None; Auth.extra := [] |}.

End Scenario.

(** ** Further scenarios *)

Module Cases.

Definition open_tender : tender_row := Scenario.tender_with "open" 2000.

(** Tender T is open and nobody has applied. *)
Definition fresh_market : database := Scenario.store [open_tender] [].

(** Company B has applied to tender T. *)
Definition applied_market : database :=
  Scenario.store [open_tender] [Scenario.application_of_B "submitted"].

Definition email_ok (s : string) : bool :=
  existsb (Ascii.eqb "@") (list_ascii_of_string s).

Definition hash (password : string) (rounds : nat) : string :=
  "bcrypt:" ++ password.

Definition compare (password hashed : string) : bool :=
  hashed =? "bcrypt:" ++ password.

Definition sign (u : UserPayload) : string := "jwt." ++ payload_id u.

Definition no_faults : Auth.faults :=
  {| Auth.insert_user_fails := false; Auth.insert_company_fails := false;
     Auth.commit_fails := false |}.

Definition account_A : user_row :=
  {| user_id := "user-a"; user_email := "a@x.com";
     user_password_hash := hash "correct horse" 12;
     user_created_at := 0 |}.

(** The account of A with its company. *)
Definition accounts : database :=
  {| users := [account_A]; companies := [Scenario.company_row_A];
     goods_services := []; tenders := []; applications := [] |}.

Definition offer (name : string) (category : option string)
  : goods_service_row :=
  {| gs_id := name; gs_company_id := Scenario.company_A; gs_name := name;
     gs_description := None; gs_category := category; gs_tags := [] |}.

(** Company A offers two kinds of steel and one service. *)
Definition catalogue : database :=
  {| users := []; companies := [Scenario.company_row_A];
     goods_services :=
       [offer "Rebar" (Some "steel"); offer "Welding" (Some "services");
        offer "Beams" (Some "steel")];
     tenders := []; applications := [] |}.

Definition login_as (email password : string) : Auth.login_body :=
  {| Auth.login_email := Some email; Auth.login_password := Some password;
     Auth.login_extra := [] |}.

End Cases.

(** ** Properties of the store queries *)

Lemma first_filter_none {A} (p : A -> bool) (rows : list A) :
  first (filter p rows) = None <-> (forall x, In x rows -> p x = false).
Proof.
  induction rows as [|y rows IH]; simpl.
  - split; [intros _ x [] | reflexivity].
  - destruct (p y) eqn:Hy; simpl.
    + split; [discriminate|]. intros H. rewrite (H y) in Hy by auto. discriminate.
    + rewrite IH. split.
      * intros H x [<-|Hx]; auto.
      * intros H x Hx. apply H. auto.
Qed.

Lemma first_filter_some {A} (p : A -> bool) (rows : list A) (x : A) :
  first (filter p rows) = Some x -> In x rows /\ p x = true.
Proof.
  intros H. assert (In x (filter p rows)) as Hin.
  { destruct (filter p rows); simpl in H; [discriminate|].
    injection H as ->. left. reflexivity. }
  apply filter_In in Hin. exact Hin.
Qed.

Lemma first_filter_found {A} (p : A -> bool) (rows : list A) (x : A) :
  In x rows -> p x = true -> exists y, first (filter p rows) = Some y.
Proof.
  intros Hin Hp. destruct (first (filter p rows)) as [y|] eqn:E.
  - exists y. reflexivity.
  - rewrite first_filter_none in E. rewrite (E x Hin) in Hp. discriminate.
Qed.

(** [ILIKE] ignores case and honours the wildcards and the escape. *)
Example ilike_examples :
  ilike "Bridge Repair" (containing "bridge") = true /\
  ilike "Bridge Repair" (containing "steel") = false /\
  ilike "50% off" (containing "0\%") = true /\
  ilike "500 off" (containing "0\%") = false /\
  ilike "abc" "a_c" = true.
Proof. repeat split. Qed.

(** [where(a).where(b).orWhere(c)] holds as soon as [c] does. *)
Lemma ungrouped_or_where {R} (a b c : R -> bool) (r : R) :
  sql_where [(AND, a); (AND, b); (OR, c)] r = (a r && b r) || c r.
Proof. reflexivity. Qed.

(** ** Properties of routes/applications *)

Module ApplicationsProps.
Import Applications.

Lemma applied_iff tender company a :
  applied tender company a = true <->
  a_tender_id a = tender /\ a_company_id a = company.
Proof.
  unfold applied. rewrite andb_true_iff, !String.eqb_eq. reflexivity.
Qed.

Lemma not_applied_fresh tender company apps :
  first (filter (applied tender company) apps) = None ->
  ~ In (tender, company) (map pair_of apps).
Proof.
  intros H Hin. rewrite first_filter_none in H.
  apply in_map_iff in Hin. destruct Hin as [a [Hp Ha]].
  specialize (H a Ha). unfold pair_of in Hp. injection Hp as Ht Hc.
  assert (applied tender company a = true) as E by (apply applied_iff; auto).
  congruence.
Qed.

Lemma one_per_pair_snoc apps a :
  one_per_pair apps -> ~ In (pair_of a) (map pair_of apps) ->
  one_per_pair (apps ++ [a]).
Proof.
  unfold one_per_pair. intros Hnd Hfresh. rewrite map_app. simpl.
  apply NoDup_app; [exact Hnd | repeat constructor; intros [] | ].
  intros x Hx [<-|[]]. contradiction.
Qed.

Lemma post_keeps_one_per_pair guid now fresh c body db :
  one_per_pair (applications db) ->
  one_per_pair (applications (snd (post_applications guid now fresh c body db))).
Proof.
  intros Hinv. unfold post_applications, authenticateToken, respond.
  destruct c as [| |user]; simpl; auto.
  destruct (createApplicationSchema guid body) as [e|value]; simpl; auto.
  destruct (if_truthy (companyId user)) as [company|]; simpl; auto.
  destruct (first (filter _ (tenders db))) as [tender|]; simpl; auto.
  destruct (negb (t_status tender =? "open")); simpl; auto.
  destruct (t_deadline tender <? now)%Z; simpl; auto.
  destruct (first (filter (applied _ _) (applications db))) eqn:E; simpl; auto.
  apply one_per_pair_snoc; [exact Hinv|].
  apply not_applied_fresh in E. exact E.
Qed.

(** C1 (amended).  POST /applications keeps at most one row per (tender,
    company) pair.  When the pair already has a row, a second submission
    never changes the ledger and is refused: with 409 Conflict when the
    tender is still open and its deadline has not passed, and otherwise
    with the answer of the earlier guard that fails first, 404 when the
    tender is not found, 400 "not open" when its status is not open, 400
    "deadline has passed" when it is open and its deadline has passed. *)
Theorem duplicate_application_rejected :
  (forall guid now fresh c body db,
      one_per_pair (applications db) ->
      one_per_pair
        (applications (snd (post_applications guid now fresh c body db)))) /\
  (forall guid now fresh user body value company db,
      createApplicationSchema guid body = inr value ->
      if_truthy (companyId user) = Some company ->
      has_application (v_tenderId value) company (applications db) ->
      let out := post_applications guid now fresh (Bearer user) body db in
      snd out = db /\
      (first (filter (fun t => t_id t =? v_tenderId value) (tenders db))
       = None ->
       fst out = Failure 404 (Text "Tender not found")) /\
      (forall tender,
          first (filter (fun t => t_id t =? v_tenderId value) (tenders db))
          = Some tender ->
          (t_status tender <> "open" ->
           fst out = Failure 400 (Text "Tender is not open for applications")) /\
          (t_status tender = "open" ->
           (t_deadline tender < now)%Z ->
           fst out = Failure 400 (Text "Tender deadline has passed")) /\
          (t_status tender = "open" ->
           (now <= t_deadline tender)%Z ->
           fst out
           = Failure 409 (Text "Company has already applied to this tender")))).
Proof.
  split; [intros; apply post_keeps_one_per_pair; assumption|].
  intros guid now fresh user body value company db Hv Hc [a [Ha [Ht Hco]]] out.
  assert (exists y, first (filter (applied (v_tenderId value) company)
                             (applications db)) = Some y) as [y Hy].
  { apply first_filter_found with a; [exact Ha|]. apply applied_iff. auto. }
  subst out. unfold post_applications, authenticateToken.
  rewrite Hv, Hc.
  destruct (first (filter _ (tenders db))) as [tender|] eqn:Et.
  - destruct (t_status tender =? "open") eqn:Es; simpl.
    + apply String.eqb_eq in Es.
      destruct (t_deadline tender <? now)%Z eqn:Ed; simpl.
      * apply Z.ltb_lt in Ed.
        split; [reflexivity|]. split; [discriminate|].
        intros t' Ht'. injection Ht' as <-. split; [|split].
        -- intros Hne. contradiction.
        -- reflexivity.
        -- intros _ Hle. lia.
      * apply Z.ltb_ge in Ed. rewrite Hy. simpl.
        split; [reflexivity|]. split; [discriminate|].
        intros t' Ht'. injection Ht' as <-. split; [|split].
        -- intros Hne. contradiction.
        -- intros _ Hlt. lia.
        -- reflexivity.
    + apply String.eqb_neq in Es.
      split; [reflexivity|]. split; [discriminate|].
      intros t' Ht'. injection Ht' as <-. split; [|split].
      * reflexivity.
      * intros Hopen. contradiction.
      * intros Hopen. contradiction.
  - simpl. split; [reflexivity|]. split; [reflexivity|].
    intros t' Ht'. discriminate.
Qed.

Lemma duplicate_application_rejected_witness :
  fst (post_applications Scenario.guid 1000 Scenario.application_2
         (Bearer Scenario.bidder_B) Scenario.apply_to_T
         (Scenario.store [Scenario.tender_with "open" 2000]
            [Scenario.application_of_B "submitted"]))
  = Failure 409 (Text "Company has already applied to this tender").
Proof.
  refine (proj2 (proj2
    (proj2 (proj2
      (proj2 duplicate_application_rejected Scenario.guid 1000%Z
         Scenario.application_2 Scenario.bidder_B Scenario.apply_to_T
         _ Scenario.company_B
         (Scenario.store [Scenario.tender_with "open" 2000]
            [Scenario.application_of_B "submitted"])
         eq_refl eq_refl _))
      (Scenario.tender_with "open" 2000) eq_refl)) eq_refl _).
  - exists (Scenario.application_of_B "submitted").
    simpl. repeat split. left. reflexivity.
  - simpl. lia.
Defined.

(** C1 as stated fails once the tender has been closed: company B already
    has a row for tender T, and its second submission is answered by the
    status guard with 400, not with 409. *)
Lemma duplicate_on_closed_tender_is_not_conflict :
  let db := Scenario.store [Scenario.tender_with "closed" 2000]
              [Scenario.application_of_B "submitted"] in
  has_application Scenario.tender_T Scenario.company_B (applications db) /\
  fst (post_applications Scenario.guid 1000 Scenario.application_2
         (Bearer Scenario.bidder_B) Scenario.apply_to_T db)
  = Failure 400 (Text "Tender is not open for applications").
Proof.
  split; [|reflexivity].
  exists (Scenario.application_of_B "submitted").
  simpl. repeat split. left. reflexivity.
Qed.

(** C3 (amended).  A valid submission against a tender whose deadline is
    strictly in the past is always refused with 400 and leaves the ledger
    as it was; the error is the deadline error when the tender is open,
    and the not-open error of the status guard, which runs first,
    otherwise. *)
Theorem past_deadline_rejected :
  forall guid now fresh user body value company tender db,
    createApplicationSchema guid body = inr value ->
    if_truthy (companyId user) = Some company ->
    first (filter (fun t => t_id t =? v_tenderId value) (tenders db))
    = Some tender ->
    (t_deadline tender < now)%Z ->
    let out := post_applications guid now fresh (Bearer user) body db in
    snd out = db /\
    code_of (fst out) = 400%Z /\
    (t_status tender = "open" ->
     fst out = Failure 400 (Text "Tender deadline has passed")) /\
    (t_status tender <> "open" ->
     fst out = Failure 400 (Text "Tender is not open for applications")).
Proof.
  intros guid now fresh user body value company tender db Hv Hc Ht Hd out.
  subst out. unfold post_applications, authenticateToken.
  rewrite Hv, Hc, Ht.
  apply Z.ltb_lt in Hd. rewrite Hd.
  destruct (t_status tender =? "open") eqn:Es; simpl.
  - repeat split; auto. intros Hne. apply String.eqb_eq in Es. contradiction.
  - repeat split; auto. intros Hopen. rewrite Hopen in Es. discriminate.
Qed.

Lemma past_deadline_rejected_witness :
  fst (post_applications Scenario.guid 1000 Scenario.application_2
         (Bearer Scenario.bidder_B) Scenario.apply_to_T
         (Scenario.store [Scenario.tender_with "open" 500] []))
  = Failure 400 (Text "Tender deadline has passed").
Proof.
  refine (proj1 (proj2 (proj2
    (past_deadline_rejected Scenario.guid 1000%Z
       Scenario.application_2 Scenario.bidder_B Scenario.apply_to_T
       _ Scenario.company_B (Scenario.tender_with "open" 500)
       (Scenario.store [Scenario.tender_with "open" 500] [])
       eq_refl eq_refl eq_refl _))) eq_refl).
  simpl. lia.
Defined.

(** C3 as stated fails on a closed tender: its deadline passed an hour
    ago, the payload is valid, and the error is the not-open error. *)
Lemma past_deadline_on_closed_tender_is_not_deadline_error :
  let db := Scenario.store [Scenario.tender_with "closed" 500] [] in
  (t_deadline (Scenario.tender_with "closed" 500) < 1000)%Z /\
  fst (post_applications Scenario.guid 1000 Scenario.application_2
         (Bearer Scenario.bidder_B) Scenario.apply_to_T db)
  = Failure 400 (Text "Tender is not open for applications") /\
  fst (post_applications Scenario.guid 1000 Scenario.application_2
         (Bearer Scenario.bidder_B) Scenario.apply_to_T db)
  <> Failure 400 (Text "Tender deadline has passed").
Proof.
  simpl. split; [lia|]. split; [reflexivity|]. discriminate.
Qed.

Lemma owned_application_found app company db a t :
  In a (applications db) -> a_id a = app ->
  In t (tenders db) -> t_id t = a_tender_id a -> t_company_id t = company ->
  exists x, owned_application app company db = Some x.
Proof.
  intros Ha Hid Ht Htid Hco. unfold owned_application.
  destruct (first _) as [x|] eqn:E; [exists x; reflexivity|].
  exfalso.
  assert (In a (flat_map
    (fun a0 => if a_id a0 =? app
               then map (fun _ => a0)
                      (filter (fun t0 => (t_id t0 =? a_tender_id a0)
                                         && (t_company_id t0 =? company))
                         (tenders db))
               else []) (applications db))) as Hin.
  { apply in_flat_map. exists a. split; [exact Ha|].
    rewrite <- Hid, String.eqb_refl.
    apply in_map_iff. exists t. split; [reflexivity|].
    apply filter_In. split; [exact Ht|].
    rewrite Htid, Hco, !String.eqb_refl. reflexivity. }
  unfold first in E. destruct (flat_map _ _); [inversion Hin | discriminate].
Qed.

Lemma set_status_stores app s now a :
  a_id a = app ->
  a_id (set_status app s now a) = app /\ a_status (set_status app s now a) = s.
Proof.
  intros H. unfold set_status. rewrite <- H, String.eqb_refl. simpl. auto.
Qed.

Lemma set_status_id app s now a : a_id (set_status app s now a) = a_id a.
Proof. unfold set_status. destruct (a_id a =? app); reflexivity. Qed.

(** C5 (amended).  For every existing application and every status the
    route's schema lists (submitted, under_review, accepted, rejected), a
    status update by the organization that owns the tender is accepted and
    stores the given status as it is, whatever the current status: no
    transition is checked. *)
Theorem status_update_is_unchecked :
  forall now user company app s body db a t,
    status body = Some s ->
    status_extra body = [] ->
    In s ["submitted"; "under_review"; "accepted"; "rejected"] ->
    if_truthy (companyId user) = Some company ->
    In a (applications db) -> a_id a = app ->
    In t (tenders db) -> t_id t = a_tender_id a -> t_company_id t = company ->
    let out := patch_application_status now (Bearer user) app body db in
    applications (snd out) = map (set_status app s now) (applications db) /\
    (exists a', fst out = Success 200 (Some a') /\
                a_id a' = app /\ a_status a' = s) /\
    (forall a', In a' (applications (snd out)) ->
                a_id a' = app -> a_status a' = s).
Proof.
  intros now user company app s body db a t Hs Hx Hin Hc Ha Hid Ht Htid Hco out.
  assert (updateApplicationStatusSchema body = inr s) as Hv.
  { unfold updateApplicationStatusSchema, joi_string_valid, check.
    rewrite Hs, Hx. simpl in Hin.
    destruct Hin as [<-|[<-|[<-|[<-|[]]]]]; reflexivity. }
  destruct (owned_application_found app company db a t Ha Hid Ht Htid Hco)
    as [x Hx'].
  subst out. unfold patch_application_status, authenticateToken.
  rewrite Hv, Hc, Hx'. simpl.
  assert (forall a', In a' (map (set_status app s now) (applications db)) ->
                     a_id a' = app -> a_status a' = s) as Hall.
  { intros a' Hin' Hid'. apply in_map_iff in Hin'.
    destruct Hin' as [b [<- Hb]].
    rewrite set_status_id in Hid'.
    apply (set_status_stores app s now b Hid'). }
  split; [reflexivity|]. split; [|exact Hall].
  destruct (first_filter_found (fun a0 => a_id a0 =? app)
              (map (set_status app s now) (applications db))
              (set_status app s now a)) as [a' Ha'].
  { apply in_map. exact Ha. }
  { rewrite set_status_id, Hid. apply String.eqb_refl. }
  exists a'. split; [rewrite Ha'; reflexivity|].
  apply first_filter_some in Ha'. destruct Ha' as [Hin' Heq].
  apply String.eqb_eq in Heq. split; [exact Heq|]. apply Hall; assumption.
Qed.

Lemma status_update_is_unchecked_witness :
  let db := Scenario.store [Scenario.tender_with "open" 2000]
              [Scenario.application_of_B "rejected"] in
  let out := patch_application_status 1000 (Bearer Scenario.owner_A)
               Scenario.application_1 (Scenario.set_to "accepted") db in
  applications (snd out)
  = map (set_status Scenario.application_1 "accepted" 1000) (applications db) /\
  (exists a', fst out = Success 200 (Some a') /\
              a_id a' = Scenario.application_1 /\ a_status a' = "accepted") /\
  (forall a', In a' (applications (snd out)) ->
              a_id a' = Scenario.application_1 -> a_status a' = "accepted").
Proof.
  apply (status_update_is_unchecked 1000%Z
           Scenario.owner_A Scenario.company_A
           Scenario.application_1 "accepted"
           (Scenario.set_to "accepted")
           (Scenario.store [Scenario.tender_with "open" 2000]
              [Scenario.application_of_B "rejected"])
           (Scenario.application_of_B "rejected")
           (Scenario.tender_with "open" 2000)
           eq_refl eq_refl
           (or_intror (or_intror (or_introl eq_refl)))
           eq_refl (or_introl eq_refl) eq_refl
           (or_introl eq_refl) eq_refl eq_refl).
Defined.

(** C5 as stated fails on [shortlisted]: the schema of the route does not
    list it, and the update is refused with a validation error. *)
Lemma shortlisted_is_refused :
  let db := Scenario.store [Scenario.tender_with "open" 2000]
              [Scenario.application_of_B "under_review"] in
  patch_application_status 1000 (Bearer Scenario.owner_A)
    Scenario.application_1 (Scenario.set_to "shortlisted") db
  = (Failure 400 (Details {| path := "status"; rule := any_only |}), db).
Proof. reflexivity. Qed.

End ApplicationsProps.

(** ** Properties of ordering and paging *)

Lemma insert_by_in {A} (le : A -> A -> bool) (x y : A) (rows : list A) :
  In y (insert_by le x rows) <-> y = x \/ In y rows.
Proof.
  induction rows as [|z rows IH]; simpl.
  - intuition.
  - destruct (le x z); simpl; [intuition|]. rewrite IH. intuition.
Qed.

Lemma order_by_in {A} (le : A -> A -> bool) (y : A) (rows : list A) :
  In y (order_by le rows) <-> In y rows.
Proof.
  unfold order_by. induction rows as [|x rows IH]; simpl.
  - reflexivity.
  - rewrite insert_by_in, IH. intuition.
Qed.

Lemma insert_by_length {A} (le : A -> A -> bool) (x : A) (rows : list A) :
  length (insert_by le x rows) = S (length rows).
Proof.
  induction rows as [|z rows IH]; simpl; [reflexivity|].
  destruct (le x z); simpl; [reflexivity|]. rewrite IH. reflexivity.
Qed.

Lemma order_by_length {A} (le : A -> A -> bool) (rows : list A) :
  length (order_by le rows) = length rows.
Proof.
  unfold order_by. induction rows as [|x rows IH]; simpl; [reflexivity|].
  rewrite insert_by_length, IH. reflexivity.
Qed.

Lemma limit_offset_in {A} (limit offset : Z) (rows page : list A) (x : A) :
  limit_offset limit offset rows = Some page -> In x page -> In x rows.
Proof.
  unfold limit_offset. destruct (_ || _)%bool; [discriminate|].
  intros H Hin. injection H as <-.
  rewrite <- (firstn_skipn (Z.to_nat offset) rows). apply in_or_app. right.
  rewrite <- (firstn_skipn (Z.to_nat limit) (skipn (Z.to_nat offset) rows)).
  apply in_or_app. left. exact Hin.
Qed.


(** ** Properties of routes/tenders *)

Module TendersProps.
Import Tenders.

Ltac joi_cases H :=
  repeat match type of H with
         | context [match ?x with _ => _ end] =>
             destruct x eqn:?; try discriminate H
         end.

Lemma absent_not_owned company tender db :
  absent tender db -> not_owned_by company tender db.
Proof. intros H t Ht Hid. exfalso. exact (H t Ht Hid). Qed.

Lemma not_owned_lookup company tender db :
  not_owned_by company tender db ->
  first (filter (owned tender company) (tenders db)) = None.
Proof.
  intros H. apply first_filter_none. intros t Ht.
  unfold owned. destruct (t_id t =? tender) eqn:Ei; [|reflexivity].
  apply String.eqb_eq in Ei. simpl.
  apply String.eqb_neq. exact (H t Ht Ei).
Qed.

Lemma put_not_owned now c tender body db :
  caller_does_not_own c tender db ->
  snd (put_tender now c tender body db) = db /\
  fst (put_tender now c tender body db)
  = fst (put_tender now c tender body
           {| users := []; companies := []; goods_services := [];
              tenders := []; applications := [] |}).
Proof.
  intros H. unfold put_tender, authenticateToken, respond.
  destruct c as [| |user]; simpl; auto.
  destruct (updateTenderSchema now body) as [e|value]; simpl; auto.
  simpl in H. destruct (if_truthy (companyId user)) as [company|]; simpl; auto.
  rewrite (not_owned_lookup company tender db H). simpl. auto.
Qed.

(** C2.  An update request for a tender the caller's organization does not
    own gets the very reply (status and body) of the same request for a
    tender id that does not exist, and neither changes the store; for a
    valid body from a caller with an organization that reply is the 404
    "Tender not found or access denied". *)
Theorem update_hides_existence :
  forall now c tender body db1 db2,
    caller_does_not_own c tender db1 ->
    absent tender db2 ->
    fst (put_tender now c tender body db1)
    = fst (put_tender now c tender body db2) /\
    snd (put_tender now c tender body db1) = db1 /\
    snd (put_tender now c tender body db2) = db2 /\
    (forall user value company,
        c = Bearer user ->
        updateTenderSchema now body = inr value ->
        if_truthy (companyId user) = Some company ->
        fst (put_tender now c tender body db1)
        = Failure 404 (Text "Tender not found or access denied")).
Proof.
  intros now c tender body db1 db2 H1 H2.
  assert (caller_does_not_own c tender db2) as H2'.
  { destruct c as [| |user]; simpl; auto.
    destruct (if_truthy (companyId user)); auto.
    apply absent_not_owned. exact H2. }
  destruct (put_not_owned now c tender body db1 H1) as [S1 R1].
  destruct (put_not_owned now c tender body db2 H2') as [S2 R2].
  repeat split; try assumption; try congruence.
  intros user value company -> Hv Hc.
  unfold put_tender, authenticateToken. rewrite Hv, Hc.
  simpl in H1. rewrite Hc in H1.
  rewrite (not_owned_lookup company tender db1 H1). reflexivity.
Qed.

Lemma update_hides_existence_witness :
  let db1 := Scenario.store [Scenario.tender_with "open" 2000] [] in
  let db2 := Scenario.store [] [] in
  let put := put_tender 1000 (Bearer Scenario.bidder_B) Scenario.tender_T
               (Scenario.status_only "closed") in
  fst (put db1) = fst (put db2) /\
  snd (put db1) = db1 /\
  snd (put db2) = db2 /\
  (forall user value company,
      Bearer Scenario.bidder_B = Bearer user ->
      updateTenderSchema 1000 (Scenario.status_only "closed") = inr value ->
      if_truthy (companyId user) = Some company ->
      fst (put db1) = Failure 404 (Text "Tender not found or access denied")).
Proof.
  apply (update_hides_existence 1000%Z (Bearer Scenario.bidder_B)
           Scenario.tender_T (Scenario.status_only "closed")
           (Scenario.store [Scenario.tender_with "open" 2000] [])
           (Scenario.store [] [])).
  - simpl. intros t [<-|[]] _. simpl. discriminate.
  - intros t [].
Defined.

Lemma update_tender_id tender value now t :
  t_id (update_tender tender value now t) = t_id t.
Proof. unfold update_tender. destruct (t_id t =? tender); reflexivity. Qed.

Lemma update_tender_status tender value now t s :
  t_id t = tender -> status value = Some s ->
  t_status (update_tender tender value now t) = s.
Proof.
  intros Hid Hs. unfold update_tender.
  rewrite <- Hid, String.eqb_refl. simpl. rewrite Hs. reflexivity.
Qed.

(** C4 (amended).  Tender status updates are not ordered: for every tender
    and every valid update by its owner that names a status (one of draft,
    open, closed, awarded), PUT /tenders/:id succeeds and stores that
    status, whatever the current status is. *)
Theorem tender_status_is_unconstrained :
  forall now user company tender body value s db t,
    updateTenderSchema now body = inr value ->
    status value = Some s ->
    if_truthy (companyId user) = Some company ->
    In t (tenders db) -> t_id t = tender -> t_company_id t = company ->
    let out := put_tender now (Bearer user) tender body db in
    tenders (snd out) = map (update_tender tender value now) (tenders db) /\
    (exists t', fst out = Success 200 (Some t') /\
                t_id t' = tender /\ t_status t' = s) /\
    (forall t', In t' (tenders (snd out)) -> t_id t' = tender ->
                t_status t' = s).
Proof.
  intros now user company tender body value s db t Hv Hs Hc Ht Hid Hco out.
  subst out. unfold put_tender, authenticateToken. rewrite Hv, Hc.
  destruct (first_filter_found (owned tender company) (tenders db) t Ht)
    as [x Hx].
  { unfold owned. rewrite Hid, Hco, !String.eqb_refl. reflexivity. }
  rewrite Hx. simpl.
  assert (forall t', In t' (map (update_tender tender value now) (tenders db)) ->
                     t_id t' = tender -> t_status t' = s) as Hall.
  { intros t' Hin Hid'. apply in_map_iff in Hin. destruct Hin as [b [<- Hb]].
    rewrite update_tender_id in Hid'.
    apply update_tender_status; assumption. }
  split; [reflexivity|]. split; [|exact Hall].
  destruct (first_filter_found (fun t0 => t_id t0 =? tender)
              (map (update_tender tender value now) (tenders db))
              (update_tender tender value now t)) as [t' Ht'].
  { apply in_map. exact Ht. }
  { rewrite update_tender_id, Hid. apply String.eqb_refl. }
  exists t'. split; [rewrite Ht'; reflexivity|].
  apply first_filter_some in Ht'. destruct Ht' as [Hin Heq].
  apply String.eqb_eq in Heq. split; [exact Heq|]. apply Hall; assumption.
Qed.

Lemma tender_status_is_unconstrained_witness :
  let db := Scenario.store [Scenario.tender_with "awarded" 2000] [] in
  let out := put_tender 1000 (Bearer Scenario.owner_A) Scenario.tender_T
               (Scenario.status_only "draft") db in
  tenders (snd out)
  = map (update_tender Scenario.tender_T (Scenario.status_only "draft") 1000)
      (tenders db) /\
  (exists t', fst out = Success 200 (Some t') /\
              t_id t' = Scenario.tender_T /\ t_status t' = "draft") /\
  (forall t', In t' (tenders (snd out)) -> t_id t' = Scenario.tender_T ->
              t_status t' = "draft").
Proof.
  apply (tender_status_is_unconstrained 1000%Z Scenario.owner_A
           Scenario.company_A Scenario.tender_T
           (Scenario.status_only "draft") (Scenario.status_only "draft")
           "draft"
           (Scenario.store [Scenario.tender_with "awarded" 2000] [])
           (Scenario.tender_with "awarded" 2000)
           eq_refl eq_refl eq_refl (or_introl eq_refl) eq_refl eq_refl).
Defined.

(** C4 as stated fails: the owner moves a closed tender back to open. *)
Lemma closed_tender_reopens :
  let db := Scenario.store [Scenario.tender_with "closed" 2000] [] in
  let out := put_tender 1000 (Bearer Scenario.owner_A) Scenario.tender_T
               (Scenario.status_only "open") db in
  map t_status (tenders db) = ["closed"] /\
  code_of (fst out) = 200%Z /\
  map t_status (tenders (snd out)) = ["open"].
Proof. repeat split. Qed.

(** Without a search term the listing holds tenders of one status only:
    the one asked for, or [open]. *)
Lemma listing_without_search_has_status q db pg :
  if_truthy (q_search q) = None ->
  fst (get_tenders q db) = Success 200 pg ->
  forall r, In r (listed pg) ->
            t_status (fst r) = or_default (if_truthy (q_status q)) "open".
Proof.
  intros Hs H r Hr. unfold get_tenders in H.
  destruct (limit_offset _ _ _) as [rows|] eqn:E; simpl in H; [|discriminate].
  injection H as <-. simpl in Hr.
  apply (limit_offset_in _ _ _ _ r E) in Hr.
  apply order_by_in in Hr. apply filter_In in Hr. destruct Hr as [_ Hw].
  unfold listing_clauses in Hw. rewrite Hs in Hw. simpl in Hw.
  apply String.eqb_eq. exact Hw.
Qed.


Ltac budget_checked q Hq :=
  match goal with
  | H : match budget _ with _ => _ end = inr _ |- _ =>
      rewrite Hq in H; destruct (positive_number q);
      [reflexivity | discriminate H]
  end.

Lemma create_value_budget now body value :
  createTenderSchema now body = inr value ->
  v_budget value = budget body /\
  extra body = [] /\
  (forall q, budget body = Some q -> positive_number q = true).
Proof.
  unfold createTenderSchema, joi_number_positive, joi_unknown, optional, check.
  intros H. joi_cases H. injection H as <-. simpl.
  split; [reflexivity|]. split.
  - match goal with
    | H : match extra body with _ => _ end = inr _ |- _ =>
        destruct (extra body) as [|[? ?] ?]; [reflexivity | discriminate H]
    end.
  - intros q Hq. budget_checked q Hq.
Qed.

Lemma update_value_budget now body value :
  updateTenderSchema now body = inr value ->
  forall q, budget value = Some q -> positive_number q = true.
Proof.
  unfold updateTenderSchema, joi_number_positive, optional, check.
  intros H. joi_cases H. injection H as <-.
  intros q Hq. budget_checked q Hq.
Qed.

Lemma post_keeps_budgets_positive now fresh c body db :
  budgets_positive (tenders db) ->
  budgets_positive (tenders (snd (post_tenders now fresh c body db))).
Proof.
  intros Hinv. unfold post_tenders, authenticateToken, respond.
  destruct c as [| |user]; simpl; auto.
  destruct (createTenderSchema now body) as [e|value] eqn:Hv; simpl; auto.
  destruct (if_truthy (companyId user)) as [company|]; simpl; auto.
  intros t q Hin Hq. apply in_app_or in Hin. destruct Hin as [Hin|[<-|[]]].
  - exact (Hinv t q Hin Hq).
  - simpl in Hq. destruct (create_value_budget now body value Hv) as [Hb [_ Hp]].
    apply Hp. congruence.
Qed.

Lemma put_keeps_budgets_positive now c tender body db :
  budgets_positive (tenders db) ->
  budgets_positive (tenders (snd (put_tender now c tender body db))).
Proof.
  intros Hinv. unfold put_tender, authenticateToken, respond.
  destruct c as [| |user]; simpl; auto.
  destruct (updateTenderSchema now body) as [e|value] eqn:Hv; simpl; auto.
  destruct (if_truthy (companyId user)) as [company|]; simpl; auto.
  destruct (first _) as [found|]; simpl; auto.
  intros t q Hin Hq. apply in_map_iff in Hin. destruct Hin as [b [<- Hb]].
  unfold update_tender in Hq. destruct (t_id b =? tender).
  - simpl in Hq. unfold replace_opt in Hq.
    destruct (budget value) as [q'|] eqn:Eb.
    + injection Hq as <-. exact (update_value_budget now body value Hv q' Eb).
    + exact (Hinv b q Hb Hq).
  - exact (Hinv b q Hb Hq).
Qed.

(** The schema of creation names one optional [budget] and neither
    [budget_min] nor [budget_max]: a body whose budget is not positive, or
    that carries one of the two bounds, is refused with a validation
    error, and POST /tenders and PUT /tenders/:id keep every stored budget
    positive. *)
Lemma create_checks_single_budget :
  forall now fresh user body db,
    ((exists q, budget body = Some q /\ positive_number q = false) \/
     carries "budget_min" (extra body) \/ carries "budget_max" (extra body) ->
     exists e, post_tenders now fresh (Bearer user) body db
               = (Failure 400 (Details e), db)) /\
    (budgets_positive (tenders db) ->
     budgets_positive
       (tenders (snd (post_tenders now fresh (Bearer user) body db))) /\
     forall tender update,
       budgets_positive
         (tenders (snd (put_tender now (Bearer user) tender update db)))).
Proof.
  intros now fresh user body db. split.
  - intros H. unfold post_tenders, authenticateToken.
    destruct (createTenderSchema now body) as [e|value] eqn:Hv.
    + exists e. reflexivity.
    + exfalso. destruct (create_value_budget now body value Hv) as [_ [Hx Hp]].
      destruct H as [[q [Hq Hneg]]|[[v Hin]|[v Hin]]].
      * rewrite (Hp q Hq) in Hneg. discriminate.
      * rewrite Hx in Hin. inversion Hin.
      * rewrite Hx in Hin. inversion Hin.
  - intros Hinv. split.
    + apply post_keeps_budgets_positive. exact Hinv.
    + intros tender update. apply put_keeps_budgets_positive. exact Hinv.
Qed.

Lemma create_checks_single_budget_witness :
  let db := Scenario.store [] [] in
  exists e,
    post_tenders 1000 Scenario.tender_T (Bearer Scenario.owner_A)
      (Scenario.new_tender (Some (0 # 1)%Q) []) db
    = (Failure 400 (Details e), db).
Proof.
  apply (proj1 (create_checks_single_budget 1000%Z Scenario.tender_T
                  Scenario.owner_A
                  (Scenario.new_tender (Some (0 # 1)%Q) [])
                  (Scenario.store [] []))).
  left. exists (0 # 1)%Q. split; reflexivity.
Defined.

(** The bounds are refused as keys, in either order, while a body with a
    single [budget] is stored. *)
Example ordered_bounds_are_refused :
  let db := Scenario.store [] [] in
  let create body :=
    post_tenders 1000 Scenario.tender_T (Bearer Scenario.owner_A) body db in
  create (Scenario.new_tender None
            [("budget_min", JNum (10 # 1)); ("budget_max", JNum (20 # 1))])
  = (Failure 400 (Details {| path := "budget_min"; rule := object_unknown |}),
     db) /\
  create (Scenario.new_tender None
            [("budget_min", JNum (20 # 1)); ("budget_max", JNum (10 # 1))])
  = (Failure 400 (Details {| path := "budget_min"; rule := object_unknown |}),
     db) /\
  code_of (fst (create (Scenario.new_tender (Some (15 # 1)%Q) []))) = 201%Z.
Proof. repeat split. Qed.



End TendersProps.

(** ** Properties of routes/auth *)

Module AuthProps.
Import Auth.

Lemma transaction_all_or_nothing {A} (work : database -> option (A * database))
  (commit_ok : bool) (db : database) :
  (fst (transaction work commit_ok db) = None /\
   snd (transaction work commit_ok db) = db) \/
  (exists a trx, work db = Some (a, trx) /\
                 transaction work commit_ok db = (Some a, trx)).
Proof.
  unfold transaction. destruct (work db) as [[a trx]|].
  - destruct commit_ok; [right; exists a, trx; auto | left; auto].
  - left. auto.
Qed.

(** C8.  Whatever the request and whichever statement of the transaction
    fails, registration leaves the store either exactly as it was (and does
    not answer 201) or with both the account row and the organization row
    added (and answers 201): never one row without the other. *)
Theorem registration_is_atomic :
  forall email_ok bcrypt_hash jwt_sign now fresh_user fresh_company f body db,
    let out :=
      post_register email_ok bcrypt_hash jwt_sign now fresh_user fresh_company
        f body db in
    (snd out = db /\ code_of (fst out) <> 201%Z) \/
    (registered_both db (snd out) /\ code_of (fst out) = 201%Z).
Proof.
  intros email_ok bcrypt_hash jwt_sign now fresh_user fresh_company f body db.
  unfold post_register.
  destruct (registerSchema email_ok body) as [e|value]; simpl.
  { left. split; [reflexivity | discriminate]. }
  destruct (first _) as [existing|]; simpl.
  { left. split; [reflexivity | discriminate]. }
  unfold transaction, insert_user, insert_company.
  destruct (insert_user_fails f); simpl.
  { left. split; [reflexivity | discriminate]. }
  destruct (insert_company_fails f); simpl.
  { left. split; [reflexivity | discriminate]. }
  destruct (commit_fails f); simpl.
  { left. split; [reflexivity | discriminate]. }
  right. split; [|reflexivity].
  eexists. eexists. simpl. repeat split.
Qed.

(** A failing company insert rolls the account row back. *)
Example company_insert_fails_rolls_back :
  let out :=
    post_register (fun _ => true) (fun p _ => p) (fun _ => "token")
      1000 "user-a" Scenario.company_A
      {| insert_user_fails := false; insert_company_fails := true;
         commit_fails := false |}
      Scenario.sign_up (Scenario.store [] []) in
  out = (internal_error, Scenario.store [] []).
Proof. reflexivity. Qed.

Example registration_commits_both :
  let out :=
    post_register (fun _ => true) (fun p _ => p) (fun _ => "token")
      1000 "user-a" Scenario.company_A
      {| insert_user_fails := false; insert_company_fails := false;
         commit_fails := false |}
      Scenario.sign_up (Scenario.store [] []) in
  map user_id (users (snd out)) = ["user-a"] /\
  map co_user_id (companies (snd out)) = ["user-a"] /\
  code_of (fst out) = 201%Z.
Proof. repeat split. Qed.

End AuthProps.

(** ** Properties of routes/search *)

Module SearchProps.
Import Search.















(** The search for "steel" finds both companies of the scenario, by name. *)
Example search_for_steel :
  exists pg,
    fst (get_search_companies
           (Scenario.search_for (Some "steel") None None None) Scenario.market)
    = Success 200 pg /\
    map (fun c => card_name (fst c)) (found_companies pg)
    = ["Acme Steel"; "Birch Steelworks"] /\
    hasMore (companies_paging pg) = false.
Proof. eexists. repeat split. Qed.

End SearchProps.

(** ** Properties of joins and of ordered pages *)


Lemma in_left_join {A B} (on : A -> B -> bool) (a : list A) (b : list B)
  (x : A) (oy : option B) :
  In (x, oy) (left_join on a b) <->
  In x a /\
  match oy with
  | Some y => In y b /\ on x y = true
  | None => forall y, In y b -> on x y = false
  end.
Proof.
  unfold left_join. rewrite in_flat_map. split.
  - intros [x' [Hx' Hin]].
    destruct (filter (on x') b) as [|y0 ys] eqn:E.
    + destruct Hin as [Heq|[]]. injection Heq as <- <-.
      split; [exact Hx'|]. intros y Hy.
      destruct (on x' y) eqn:Eon; [|reflexivity].
      assert (In y (filter (on x') b)) as Hf by (apply filter_In; auto).
      rewrite E in Hf. destruct Hf.
    + apply in_map_iff in Hin. destruct Hin as [y [Heq Hy]].
      injection Heq as <- <-. rewrite <- E in Hy.
      apply filter_In in Hy. auto.
  - intros [Hx Hoy]. exists x. split; [exact Hx|].
    destruct oy as [y|].
    + destruct Hoy as [Hy Hon].
      assert (In y (filter (on x) b)) as Hf by (apply filter_In; auto).
      destruct (filter (on x) b) as [|y0 ys] eqn:E; [destruct Hf|].
      apply in_map_iff. exists y. auto.
    + destruct (filter (on x) b) as [|y0 ys] eqn:E; [left; reflexivity|].
      exfalso. assert (In y0 (filter (on x) b)) as Hf by (rewrite E; left; auto).
      apply filter_In in Hf. destruct Hf as [Hy0 Hon].
      rewrite (Hoy y0 Hy0) in Hon. discriminate.
Qed.

(** Every row of the left table survives the join. *)
Lemma left_join_keeps {A B} (on : A -> B -> bool) (a : list A) (b : list B)
  (x : A) :
  In x a -> exists oy, In (x, oy) (left_join on a b).
Proof.
  intros Hx. destruct (filter (on x) b) as [|y ys] eqn:E.
  - exists None. apply in_left_join. split; [exact Hx|].
    intros y Hy. destruct (on x y) eqn:Eon; [|reflexivity].
    assert (In y (filter (on x) b)) as Hf by (apply filter_In; auto).
    rewrite E in Hf. destruct Hf.
  - exists (Some y). apply in_left_join. split; [exact Hx|].
    assert (In y (filter (on x) b)) as Hf by (rewrite E; left; auto).
    apply filter_In in Hf. exact Hf.
Qed.

Lemma left_join_from {A B} (on : A -> B -> bool) (a : list A) (b : list B)
  (r : A * option B) :
  In r (left_join on a b) -> In (fst r) a.
Proof. destruct r as [x oy]. intros H. apply in_left_join in H. apply H. Qed.

Lemma insert_by_ordered {A} (le : A -> A -> bool) (x : A) (rows : list A) :
  total_order le -> ordered le rows -> ordered le (insert_by le x rows).
Proof.
  intros Htot. unfold ordered. induction rows as [|y rows IH]; intros Hs; simpl.
  - repeat constructor.
  - destruct (le x y) eqn:E.
    + constructor; [exact Hs|]. constructor. exact E.
    + inversion Hs as [|? ? Hs' Hhd]; subst.
      constructor; [apply IH; exact Hs'|].
      assert (le y x = true) as Hyx.
      { destruct (Htot x y) as [H|H]; [congruence | exact H]. }
      destruct rows as [|z rows]; simpl.
      * constructor. exact Hyx.
      * destruct (le x z); constructor; [exact Hyx|].
        inversion Hhd; subst. assumption.
Qed.

Lemma order_by_ordered {A} (le : A -> A -> bool) (rows : list A) :
  total_order le -> ordered le (order_by le rows).
Proof.
  intros Htot. unfold order_by. induction rows as [|x rows IH]; simpl.
  - constructor.
  - apply insert_by_ordered; assumption.
Qed.





(** ** Further properties of routes/applications *)

Module ApplicationsMore.
Import Applications.

Ltac schema_cases H :=
  repeat match type of H with
         | context [match ?x with _ => _ end] =>
             destruct x eqn:?; try discriminate H
         end.

Lemma no_application_lookup tender company apps :
  ~ has_application tender company apps ->
  first (filter (applied tender company) apps) = None.
Proof.
  intros H. apply first_filter_none. intros a Ha.
  destruct (applied tender company a) eqn:E; [|reflexivity].
  exfalso. apply H. exists a. split; [exact Ha|].
  unfold applied in E. apply andb_true_iff in E.
  rewrite !String.eqb_eq in E. exact E.
Qed.

Lemma lookup_no_application tender company apps :
  first (filter (applied tender company) apps) = None ->
  ~ has_application tender company apps.
Proof.
  intros H [a [Ha [Ht Hc]]]. rewrite first_filter_none in H.
  specialize (H a Ha). unfold applied in H.
  rewrite Ht, Hc, !String.eqb_refl in H. discriminate.
Qed.

(** What a validated body guarantees. *)
Lemma validated_application guid body value :
  createApplicationSchema guid body = inr value ->
  (50 <= String.length (v_proposal value))%nat /\
  guid (v_tenderId value) = true /\
  match v_quotedPrice value with
  | Some q => positive_number q = true
  | None => True
  end.
Proof.
  unfold createApplicationSchema, joi_string_min, joi_string,
    joi_number_positive, optional, check.
  intros H. schema_cases H. injection H as <-. simpl.
  repeat match goal with
         | E : context [if ?b then _ else _] |- _ =>
             destruct b eqn:?; simpl in E; try discriminate E
         end.
  split; [apply Nat.leb_le; assumption|]. split; [reflexivity|].
  destruct (quotedPrice body) as [q|]; [|exact I].
  match goal with
  | E : (if positive_number q then _ else _) = inr _ |- _ =>
      destruct (positive_number q); [reflexivity | discriminate E]
  end.
Qed.

(** X1.  A valid submission by a company that has not applied yet, against
    an open tender whose deadline has not passed (a deadline equal to the
    clock still counts), is stored as a new row at the end of the ledger,
    under the fresh id, with the default status; the same submission sent
    again before the deadline is answered 409 and changes nothing. *)
Theorem accepted_then_conflict :
  forall guid now later fresh fresh' user body value company tender db,
    createApplicationSchema guid body = inr value ->
    if_truthy (companyId user) = Some company ->
    first (filter (fun t => t_id t =? v_tenderId value) (tenders db))
    = Some tender ->
    t_status tender = "open" ->
    (now <= t_deadline tender)%Z ->
    (later <= t_deadline tender)%Z ->
    ~ has_application (v_tenderId value) company (applications db) ->
    exists row,
      post_applications guid now fresh (Bearer user) body db
      = (Success 201 row,
         with_applications db (applications db ++ [row])) /\
      a_id row = fresh /\
      a_tender_id row = v_tenderId value /\
      a_company_id row = company /\
      a_proposal row = v_proposal value /\
      a_quoted_price row = v_quotedPrice value /\
      a_status row = default_application_status /\
      a_submitted_at row = now /\
      post_applications guid later fresh' (Bearer user) body
        (with_applications db (applications db ++ [row]))
      = (Failure 409 (Text "Company has already applied to this tender"),
         with_applications db (applications db ++ [row])).
Proof.
  intros guid now later fresh fresh' user body value company tender db
    Hv Hc Ht Hopen Hnow Hlater Hnone.
  eexists. split.
  - unfold post_applications, authenticateToken.
    rewrite Hv, Hc, Ht, Hopen. simpl.
    assert ((t_deadline tender <? now)%Z = false) as -> by (apply Z.ltb_ge; lia).
    rewrite (no_application_lookup _ _ _ Hnone). reflexivity.
  - simpl. repeat (split; [reflexivity|]).
    unfold post_applications, authenticateToken.
    rewrite Hv, Hc. simpl. rewrite Ht, Hopen. simpl.
    assert ((t_deadline tender <? later)%Z = false) as -> by (apply Z.ltb_ge; lia).
    rewrite filter_app. simpl. unfold applied at 2. simpl.
    rewrite !String.eqb_refl. simpl.
    pose proof (no_application_lookup _ _ _ Hnone) as Hempty.
    destruct (filter (applied (v_tenderId value) company) (applications db));
      [reflexivity | discriminate Hempty].
Qed.

(** X2.  Whenever POST /applications answers 201, the caller carried a
    verified token with a company, the proposal has at least 50
    characters, a quoted price is positive, the application's tender is in
    the store with status open and a deadline not before the clock, and
    the company had no application to that tender. *)
Theorem accepted_only_on_open_tender :
  forall guid now fresh c body db row,
    fst (post_applications guid now fresh c body db) = Success 201 row ->
    exists user tender,
      c = Bearer user /\
      if_truthy (companyId user) = Some (a_company_id row) /\
      In tender (tenders db) /\
      t_id tender = a_tender_id row /\
      t_status tender = "open" /\
      (now <= t_deadline tender)%Z /\
      ~ has_application (a_tender_id row) (a_company_id row) (applications db) /\
      (50 <= String.length (a_proposal row))%nat /\
      match a_quoted_price row with
      | Some q => positive_number q = true
      | None => True
      end.
Proof.
  intros guid now fresh c body db row.
  unfold post_applications, authenticateToken, respond.
  destruct c as [| |user]; simpl; try discriminate.
  destruct (createApplicationSchema guid body) as [e|value] eqn:Hv;
    simpl; [discriminate|].
  destruct (if_truthy (companyId user)) as [company|] eqn:Hc;
    simpl; [|discriminate].
  destruct (first (filter _ (tenders db))) as [tender|] eqn:Ht;
    simpl; [|discriminate].
  destruct (t_status tender =? "open") eqn:Es; simpl; [|discriminate].
  destruct (t_deadline tender <? now)%Z eqn:Ed; simpl; [discriminate|].
  destruct (first (filter (applied _ _) (applications db))) eqn:Ea;
    simpl; [discriminate|].
  intros H. injection H as <-. simpl.
  apply first_filter_some in Ht. destruct Ht as [Hin Hid].
  destruct (validated_application guid body value Hv) as [Hlen [_ Hq]].
  exists user, tender. repeat split; auto.
  - apply String.eqb_eq. exact Hid.
  - apply String.eqb_eq. exact Es.
  - apply Z.ltb_ge. exact Ed.
  - apply lookup_no_application. exact Ea.
Qed.

(** X3.  POST /applications only ever appends to the ledger: the other
    tables are untouched, no stored application is changed or removed, and
    a row is added exactly when the answer is 201. *)
Theorem submission_only_appends :
  forall guid now fresh c body db,
    let out := post_applications guid now fresh c body db in
    users (snd out) = users db /\
    companies (snd out) = companies db /\
    goods_services (snd out) = goods_services db /\
    tenders (snd out) = tenders db /\
    ((snd out = db /\ code_of (fst out) <> 201%Z) \/
     (exists row,
         fst out = Success 201 row /\
         applications (snd out) = (applications db ++ [row])%list)).
Proof.
  intros guid now fresh c body db.
  unfold post_applications, authenticateToken, respond.
  destruct c as [| |user]; simpl;
    try (repeat split; auto; left; split; [reflexivity|discriminate]).
  destruct (createApplicationSchema guid body) as [e|value]; simpl;
    try (repeat split; auto; left; split; [reflexivity|discriminate]).
  destruct (if_truthy (companyId user)) as [company|]; simpl;
    try (repeat split; auto; left; split; [reflexivity|discriminate]).
  destruct (first (filter _ (tenders db))) as [tender|]; simpl;
    try (repeat split; auto; left; split; [reflexivity|discriminate]).
  destruct (negb (t_status tender =? "open")); simpl;
    try (repeat split; auto; left; split; [reflexivity|discriminate]).
  destruct (t_deadline tender <? now)%Z; simpl;
    try (repeat split; auto; left; split; [reflexivity|discriminate]).
  destruct (first (filter (applied _ _) (applications db))); simpl;
    try (repeat split; auto; left; split; [reflexivity|discriminate]).
  repeat split; auto. right. eexists. split; reflexivity.
Qed.

Lemma not_owned_application app company db :
  (forall a t, In a (applications db) -> a_id a = app ->
               In t (tenders db) -> t_id t = a_tender_id a ->
               t_company_id t <> company) ->
  owned_application app company db = None.
Proof.
  intros H. unfold owned_application.
  destruct (flat_map _ (applications db)) as [|x rest] eqn:E; [reflexivity|].
  exfalso.
  assert (In x (x :: rest)) as Hin by (left; reflexivity).
  rewrite <- E in Hin. apply in_flat_map in Hin.
  destruct Hin as [a [Ha Hx]].
  destruct (a_id a =? app) eqn:Eid; [|destruct Hx].
  apply String.eqb_eq in Eid.
  apply in_map_iff in Hx. destruct Hx as [t [_ Ht]].
  apply filter_In in Ht. destruct Ht as [Ht Hon].
  apply andb_true_iff in Hon. rewrite !String.eqb_eq in Hon.
  destruct Hon as [Htid Hco].
  exact (H a t Ha Eid Ht Htid Hco).
Qed.

(** X4.  Only the company that owns the tender of an application can set
    its status: for any other caller, the applicant included, a valid
    PATCH /applications/:id/status is answered 404 "Application not found
    or access denied", the answer to an id that does not exist, and the
    store is unchanged. *)
Theorem status_update_needs_tender_owner :
  forall now user company app body s db,
    updateApplicationStatusSchema body = inr s ->
    if_truthy (companyId user) = Some company ->
    (forall a t, In a (applications db) -> a_id a = app ->
                 In t (tenders db) -> t_id t = a_tender_id a ->
                 t_company_id t <> company) ->
    patch_application_status now (Bearer user) app body db
    = (Failure 404 (Text "Application not found or access denied"), db) /\
    patch_application_status now (Bearer user) app body db
    = (fst (patch_application_status now (Bearer user) app body
              (with_applications db [])), db).
Proof.
  intros now user company app body s db Hv Hc Hno.
  unfold patch_application_status, authenticateToken.
  rewrite Hv, Hc. rewrite (not_owned_application app company db Hno).
  split; reflexivity.
Qed.

Lemma set_status_keeps app s now a :
  a_id (set_status app s now a) = a_id a /\
  a_tender_id (set_status app s now a) = a_tender_id a /\
  a_company_id (set_status app s now a) = a_company_id a /\
  a_proposal (set_status app s now a) = a_proposal a /\
  a_quoted_price (set_status app s now a) = a_quoted_price a /\
  a_currency (set_status app s now a) = a_currency a /\
  a_attachments (set_status app s now a) = a_attachments a /\
  a_submitted_at (set_status app s now a) = a_submitted_at a /\
  (a_id a <> app -> set_status app s now a = a).
Proof.
  unfold set_status. destruct (a_id a =? app) eqn:E; simpl.
  - repeat split. intros Hne. apply String.eqb_eq in E. contradiction.
  - repeat split.
Qed.

Lemma only_status_changed_refl app apps : only_status_changed app apps apps.
Proof.
  unfold only_status_changed. induction apps as [|a apps IH]; constructor.
  - repeat split.
  - exact IH.
Qed.

Lemma only_status_changed_map app s now apps :
  only_status_changed app apps (map (set_status app s now) apps).
Proof.
  unfold only_status_changed. induction apps as [|a apps IH]; simpl;
    constructor.
  - apply set_status_keeps.
  - exact IH.
Qed.

Lemma only_status_changed_pairs app before after :
  only_status_changed app before after ->
  map pair_of after = map pair_of before.
Proof.
  unfold only_status_changed. induction 1 as [|a a' l l' H _ IH]; simpl.
  - reflexivity.
  - unfold pair_of at 1 3. destruct H as [_ [-> [-> _]]]. rewrite IH.
    reflexivity.
Qed.

(** X5.  PATCH /applications/:id/status never adds, removes, reorders or
    re-files an application: whatever the request, the ledger keeps its
    rows one for one, only the status and the update stamp of the rows
    with the given id may differ, the other tables are untouched, and at
    most one application per (tender, company) pair stays true. *)
Theorem status_update_changes_status_only :
  forall now c app body db,
    let db' := snd (patch_application_status now c app body db) in
    only_status_changed app (applications db) (applications db') /\
    users db' = users db /\
    companies db' = companies db /\
    goods_services db' = goods_services db /\
    tenders db' = tenders db /\
    (one_per_pair (applications db) -> one_per_pair (applications db')).
Proof.
  intros now c app body db db'.
  assert (only_status_changed app (applications db) (applications db') /\
          users db' = users db /\ companies db' = companies db /\
          goods_services db' = goods_services db /\
          tenders db' = tenders db) as H.
  { subst db'. unfold patch_application_status, authenticateToken, respond.
    destruct c as [| |user]; simpl;
      try (split; [apply only_status_changed_refl | repeat split]).
    destruct (updateApplicationStatusSchema body) as [e|s]; simpl;
      try (split; [apply only_status_changed_refl | repeat split]).
    destruct (if_truthy (companyId user)) as [company|]; simpl;
      try (split; [apply only_status_changed_refl | repeat split]).
    destruct (owned_application app company db); simpl;
      try (split; [apply only_status_changed_refl | repeat split]).
    split; [apply only_status_changed_map | repeat split]. }
  destruct H as [Hrows [Hu [Hc [Hg Ht]]]].
  repeat split; try assumption.
  unfold one_per_pair. rewrite (only_status_changed_pairs app _ _ Hrows).
  auto.
Qed.

Lemma newest_first_total {B} : total_order (@newest_first B).
Proof.
  intros x y. unfold newest_first.
  destruct (Z.le_ge_cases (a_submitted_at (fst y)) (a_submitted_at (fst x)))
    as [H|H]; [left | right]; apply Z.leb_le; exact H.
Qed.

(** X6.  GET /applications/tender/:tenderId shows a tender's applications
    to the company that owns the tender and to nobody else: the owner gets
    exactly the applications filed under that tender, each of them and no
    other, newest first, and any other company gets 404. *)
Theorem tender_applications_for_owner_only :
  forall user company tender db,
    if_truthy (companyId user) = Some company ->
    (not_owned_by company tender db ->
     get_tender_applications (Bearer user) tender db
     = (Failure 404 (Text "Tender not found or access denied"), db)) /\
    (forall t,
        In t (tenders db) -> t_id t = tender -> t_company_id t = company ->
        exists rows,
          get_tender_applications (Bearer user) tender db
          = (Success 200 rows, db) /\
          (forall r, In r rows ->
                     In (fst r) (applications db) /\
                     a_tender_id (fst r) = tender) /\
          (forall a, In a (applications db) -> a_tender_id a = tender ->
                     exists r, In r rows /\ fst r = a) /\
          ordered newest_first rows).
Proof.
  intros user company tender db Hc. split.
  - intros Hno. unfold get_tender_applications, authenticateToken.
    rewrite Hc.
    rewrite (proj2 (first_filter_none _ (tenders db))); [reflexivity|].
    intros t Ht. destruct (t_id t =? tender) eqn:Ei; [|reflexivity].
    apply String.eqb_eq in Ei. simpl.
    apply String.eqb_neq. exact (Hno t Ht Ei).
  - intros t Ht Hid Hco. unfold get_tender_applications, authenticateToken.
    rewrite Hc.
    destruct (first_filter_found
                (fun t0 => (t_id t0 =? tender) && (t_company_id t0 =? company))
                (tenders db) t Ht) as [x Hx].
    { rewrite Hid, Hco, !String.eqb_refl. reflexivity. }
    rewrite Hx. eexists. split; [reflexivity|]. split; [|split].
    + intros r Hr. apply order_by_in in Hr. apply filter_In in Hr.
      destruct Hr as [Hr Ht']. split.
      * exact (left_join_from _ _ _ r Hr).
      * apply String.eqb_eq. exact Ht'.
    + intros a Ha Hta.
      destruct (left_join_keeps (fun a0 co => a_company_id a0 =? co_id co)
                  (applications db) (companies db) a Ha) as [oy Hin].
      exists (a, oy). split; [|reflexivity].
      apply order_by_in. apply filter_In. split; [exact Hin|].
      simpl. rewrite Hta. apply String.eqb_refl.
    + apply order_by_ordered. apply newest_first_total.
Qed.

Lemma in_with_tender_and_owner db r :
  In r (with_tender_and_owner db) ->
  In (fst r) (applications db) /\
  match fst (snd r) with
  | Some t => In t (tenders db) /\ t_id t = a_tender_id (fst r)
  | None => True
  end.
Proof.
  unfold with_tender_and_owner. intros H. apply in_map_iff in H.
  destruct H as [[[a ot] oc] [<- H]]. simpl.
  apply left_join_from in H. simpl in H.
  apply in_left_join in H. destruct H as [Ha Hot]. split; [exact Ha|].
  destruct ot as [t|]; [|exact I].
  destruct Hot as [Ht Hon]. split; [exact Ht|].
  apply String.eqb_eq in Hon. auto.
Qed.

Lemma with_tender_and_owner_keeps db a :
  In a (applications db) ->
  exists r, In r (with_tender_and_owner db) /\ fst r = a.
Proof.
  intros Ha.
  destruct (left_join_keeps (fun a0 t => a_tender_id a0 =? t_id t)
              (applications db) (tenders db) a Ha) as [ot H1].
  destruct (left_join_keeps
              (fun (r : application_row * option tender_row) co =>
                 match snd r with
                 | Some t => t_company_id t =? co_id co
                 | None => false
                 end)
              _ (companies db) (a, ot) H1) as [oc H2].
  exists (a, (ot, oc)). split; [|reflexivity].
  unfold with_tender_and_owner. apply in_map_iff.
  exists ((a, ot), oc). split; [reflexivity | exact H2].
Qed.

Lemma in_with_tender_and_owner_iff db a ot oc :
  In (a, (ot, oc)) (with_tender_and_owner db) <->
  In a (applications db) /\
  match ot with
  | Some t => In t (tenders db) /\ t_id t = a_tender_id a
  | None => forall t, In t (tenders db) -> t_id t <> a_tender_id a
  end /\
  match oc with
  | Some c =>
      In c (companies db) /\
      exists t, ot = Some t /\ co_id c = t_company_id t
  | None =>
      forall t, ot = Some t ->
                forall c, In c (companies db) -> co_id c <> t_company_id t
  end.
Proof.
  unfold with_tender_and_owner. rewrite in_map_iff. split.
  - intros [[[a' ot'] oc'] [Heq H]]. simpl in Heq.
    injection Heq as -> -> ->.
    apply in_left_join in H. destruct H as [H Hoc].
    apply in_left_join in H. destruct H as [Ha Hot]. simpl in Hoc.
    split; [exact Ha|]. split.
    + destruct ot as [t|].
      * destruct Hot as [Ht Hon]. apply String.eqb_eq in Hon. auto.
      * intros t Ht Heq. specialize (Hot t Ht).
        rewrite Heq, String.eqb_refl in Hot. discriminate.
    + destruct oc as [c|].
      * destruct Hoc as [Hc Hon]. split; [exact Hc|].
        destruct ot as [t|]; [|discriminate].
        exists t. split; [reflexivity|].
        apply String.eqb_eq in Hon. auto.
      * intros t -> c Hc Heq. specialize (Hoc c Hc).
        rewrite Heq, String.eqb_refl in Hoc. discriminate.
  - intros [Ha [Hot Hoc]]. exists ((a, ot), oc). split; [reflexivity|].
    apply in_left_join. split.
    + apply in_left_join. split; [exact Ha|].
      destruct ot as [t|].
      * destruct Hot as [Ht Hid]. split; [exact Ht|].
        rewrite Hid. apply String.eqb_refl.
      * intros t Ht. apply String.eqb_neq. intros Heq.
        apply (Hot t Ht). auto.
    + simpl. destruct oc as [c|].
      * destruct Hoc as [Hc [t [-> Hid]]]. split; [exact Hc|].
        rewrite Hid. apply String.eqb_refl.
      * intros c Hc. destruct ot as [t|]; [|reflexivity].
        apply String.eqb_neq. intros Heq.
        apply (Hoc t eq_refl c Hc). auto.
Qed.

(** X7.  GET /applications/company/mine returns the applications of the
    caller's company, all of them and no application of another company,
    newest first.  Each row is joined with a stored tender the application
    was filed under, and with no tender only when the store holds none
    with that id; every such tender yields a row; the row carries the
    company of that tender when the store holds it, and none only when it
    does not. *)
Theorem my_applications_are_mine :
  forall user company db,
    if_truthy (companyId user) = Some company ->
    exists rows,
      get_my_applications (Bearer user) db = (Success 200 rows, db) /\
      (forall r, In r rows ->
                 In (fst r) (applications db) /\
                 a_company_id (fst r) = company /\
                 match fst (snd r) with
                 | Some t => In t (tenders db) /\ t_id t = a_tender_id (fst r)
                 | None => forall t, In t (tenders db) ->
                                     t_id t <> a_tender_id (fst r)
                 end /\
                 match snd (snd r) with
                 | Some c =>
                     In c (companies db) /\
                     exists t, fst (snd r) = Some t /\
                               co_id c = t_company_id t
                 | None =>
                     forall t, fst (snd r) = Some t ->
                               forall c, In c (companies db) ->
                                         co_id c <> t_company_id t
                 end) /\
      (forall a, In a (applications db) -> a_company_id a = company ->
                 exists r, In r rows /\ fst r = a) /\
      (forall a t,
          In a (applications db) -> a_company_id a = company ->
          In t (tenders db) -> t_id t = a_tender_id a ->
          exists owner, In (a, (Some t, owner)) rows) /\
      ordered newest_first rows.
Proof.
  intros user company db Hc. unfold get_my_applications, authenticateToken.
  rewrite Hc. eexists. split; [reflexivity|]. split; [|split; [|split]].
  - intros [a [ot oc]] Hr. apply order_by_in in Hr. apply filter_In in Hr.
    destruct Hr as [Hr Hco]. apply in_with_tender_and_owner_iff in Hr.
    destruct Hr as [Ha [Hot Hoc]]. simpl in *.
    split; [exact Ha|]. split; [apply String.eqb_eq; exact Hco|].
    split; assumption.
  - intros a Ha Hco. destruct (with_tender_and_owner_keeps db a Ha) as [r [Hr <-]].
    exists r. split; [|reflexivity].
    apply order_by_in. apply filter_In. split; [exact Hr|].
    rewrite Hco. apply String.eqb_refl.
  - intros a t Ha Hco Ht Hid.
    assert (In (a, Some t)
              (left_join (fun a0 t0 => a_tender_id a0 =? t_id t0)
                 (applications db) (tenders db))) as H1.
    { apply in_left_join. split; [exact Ha|]. split; [exact Ht|].
      rewrite Hid. apply String.eqb_refl. }
    destruct (left_join_keeps
                (fun (r : application_row * option tender_row) co =>
                   match snd r with
                   | Some t0 => t_company_id t0 =? co_id co
                   | None => false
                   end)
                _ (companies db) (a, Some t) H1) as [oc H2].
    exists oc. apply order_by_in. apply filter_In. split.
    + unfold with_tender_and_owner. apply in_map_iff.
      exists ((a, Some t), oc). split; [reflexivity | exact H2].
    + simpl. rewrite Hco. apply String.eqb_refl.
  - apply order_by_ordered. apply newest_first_total.
Qed.

Lemma visible_to_spec app company r :
  sql_where (visible_to app company) r
  = (a_id (view_application r) =? app)
    && ((a_company_id (view_application r) =? company)
        || match view_tender r with
           | Some t => t_company_id t =? company
           | None => false
           end).
Proof. reflexivity. Qed.

Lemma in_application_views db r :
  In r (application_views db) ->
  In (view_application r) (applications db) /\
  match view_tender r with
  | Some t =>
      In t (tenders db) /\ t_id t = a_tender_id (view_application r)
  | None => True
  end.
Proof.
  destruct r as [[[a ot] oa] oc]. unfold application_views.
  intros H. apply left_join_from in H. simpl in H.
  apply left_join_from in H. simpl in H.
  apply in_left_join in H. destruct H as [Ha Hot].
  unfold view_application, view_tender. simpl. split; [exact Ha|].
  destruct ot as [t|]; [|exact I].
  destruct Hot as [Ht Hon]. apply String.eqb_eq in Hon. auto.
Qed.

Lemma application_views_keep db a ot :
  In (a, ot)
    (left_join (fun a0 t => a_tender_id a0 =? t_id t)
       (applications db) (tenders db)) ->
  exists r, In r (application_views db) /\
            view_application r = a /\ view_tender r = ot.
Proof.
  intros H1.
  destruct (left_join_keeps
              (fun (r : application_row * option tender_row) co =>
                 a_company_id (fst r) =? co_id co)
              _ (companies db) (a, ot) H1) as [oa H2].
  destruct (left_join_keeps
              (fun (r : (application_row * option tender_row)
                        * option company_row) co =>
                 match snd (fst r) with
                 | Some t => t_company_id t =? co_id co
                 | None => false
                 end)
              _ (companies db) ((a, ot), oa) H2) as [oc H3].
  exists (((a, ot), oa), oc). split; [exact H3|]. split; reflexivity.
Qed.

(** X8.  GET /applications/:id shows an application to the company that
    filed it and to the company that owns its tender, and to no one else:
    a 200 answer carries an application with that id of which the caller
    is the applicant or the tender's owner; either party does get 200; a
    third company gets the 404 of an unknown id. *)
Theorem application_visible_to_its_parties :
  forall user company app db,
    if_truthy (companyId user) = Some company ->
    (forall r,
        fst (get_application (Bearer user) app db) = Success 200 r ->
        In (view_application r) (applications db) /\
        a_id (view_application r) = app /\
        (a_company_id (view_application r) = company \/
         exists t, view_tender r = Some t /\ In t (tenders db) /\
                   t_id t = a_tender_id (view_application r) /\
                   t_company_id t = company)) /\
    ((exists a, In a (applications db) /\ a_id a = app /\
                (a_company_id a = company \/
                 exists t, In t (tenders db) /\ t_id t = a_tender_id a /\
                           t_company_id t = company)) ->
     exists r, get_application (Bearer user) app db = (Success 200 r, db)) /\
    ((forall a, In a (applications db) -> a_id a = app ->
                a_company_id a <> company /\
                forall t, In t (tenders db) -> t_id t = a_tender_id a ->
                          t_company_id t <> company) ->
     get_application (Bearer user) app db
     = (Failure 404 (Text "Application not found or access denied"), db)).
Proof.
  intros user company app db Hc.
  unfold get_application, authenticateToken. rewrite Hc.
  split; [|split].
  - intros r H.
    destruct (first (filter _ (application_views db))) as [x|] eqn:E;
      simpl in H; [|discriminate].
    injection H as <-. apply first_filter_some in E.
    destruct E as [Hin Hvis]. rewrite visible_to_spec in Hvis.
    apply andb_true_iff in Hvis. destruct Hvis as [Hid Hparty].
    apply in_application_views in Hin. destruct Hin as [Ha Ht].
    split; [exact Ha|]. split; [apply String.eqb_eq; exact Hid|].
    apply orb_true_iff in Hparty. destruct Hparty as [Hp|Hp].
    + left. apply String.eqb_eq. exact Hp.
    + right. destruct (view_tender x) as [t|]; [|discriminate].
      exists t. destruct Ht as [Ht Htid]. repeat split; auto.
      apply String.eqb_eq. exact Hp.
  - intros [a [Ha [Hid Hparty]]].
    assert (exists r, In r (application_views db) /\
                      sql_where (visible_to app company) r = true)
      as [r [Hr Hvis]].
    { destruct Hparty as [Hco | [t [Ht [Htid Hown]]]].
      - destruct (left_join_keeps (fun a0 t => a_tender_id a0 =? t_id t)
                    (applications db) (tenders db) a Ha) as [ot H1].
        destruct (application_views_keep db a ot H1) as [r [Hr [Hva Hvt]]].
        exists r. split; [exact Hr|]. rewrite visible_to_spec, Hva, Hid, Hco.
        rewrite !String.eqb_refl. reflexivity.
      - assert (In (a, Some t)
                  (left_join (fun a0 t0 => a_tender_id a0 =? t_id t0)
                     (applications db) (tenders db))) as H1.
        { apply in_left_join. split; [exact Ha|]. split; [exact Ht|].
          rewrite Htid. apply String.eqb_refl. }
        destruct (application_views_keep db a (Some t) H1)
          as [r [Hr [Hva Hvt]]].
        exists r. split; [exact Hr|].
        rewrite visible_to_spec, Hva, Hvt, Hid, Hown.
        rewrite !String.eqb_refl. apply orb_true_r. }
    destruct (first_filter_found _ _ r Hr Hvis) as [y Hy].
    exists y. rewrite Hy. reflexivity.
  - intros Hno.
    rewrite (proj2 (first_filter_none _ (application_views db)));
      [reflexivity|].
    intros r Hr. rewrite visible_to_spec.
    apply in_application_views in Hr. destruct Hr as [Ha Ht].
    destruct (a_id (view_application r) =? app) eqn:Eid; [|reflexivity].
    apply String.eqb_eq in Eid. simpl.
    destruct (Hno _ Ha Eid) as [Hne Hten].
    apply String.eqb_neq in Hne. rewrite Hne. simpl.
    destruct (view_tender r) as [t|]; [|reflexivity].
    destruct Ht as [Ht Htid]. apply String.eqb_neq. exact (Hten t Ht Htid).
Qed.

(** The two outcomes of a submission. *)
Lemma submission_outcomes guid now fresh c body db :
  (exists code error,
      post_applications guid now fresh c body db = (Failure code error, db)) \/
  (exists row,
      post_applications guid now fresh c body db
      = (Success 201 row, with_applications db (applications db ++ [row]))).
Proof.
  unfold post_applications, authenticateToken, respond.
  destruct c as [| |user]; simpl; try (left; eauto; fail).
  destruct (createApplicationSchema guid body) as [e|value]; simpl;
    try (left; eauto; fail).
  destruct (if_truthy (companyId user)) as [company|]; simpl;
    try (left; eauto; fail).
  destruct (first (filter _ (tenders db))) as [tender|]; simpl;
    try (left; eauto; fail).
  destruct (negb (t_status tender =? "open")); simpl;
    try (left; eauto; fail).
  destruct (t_deadline tender <? now)%Z; simpl; try (left; eauto; fail).
  destruct (first (filter (applied _ _) (applications db))); simpl;
    try (left; eauto; fail).
  right. eauto.
Qed.

End ApplicationsMore.

(** ** Further properties of routes/tenders *)

Module TendersMore.
Import Tenders.

Lemma filter_none {A} (p : A -> bool) (rows : list A) :
  (forall x, In x rows -> p x = false) -> filter p rows = [].
Proof.
  intros H. induction rows as [|x rows IH]; simpl; [reflexivity|].
  rewrite (H x) by (left; reflexivity). apply IH.
  intros y Hy. apply H. right. exact Hy.
Qed.

Lemma left_join_app {A B} (on : A -> B -> bool) (a a' : list A) (b : list B) :
  left_join on (a ++ a') b = (left_join on a b ++ left_join on a' b)%list.
Proof. unfold left_join. apply flat_map_app. Qed.

Lemma validated_tender now body value :
  createTenderSchema now body = inr value ->
  (5 <= String.length (v_title value))%nat /\
  (20 <= String.length (v_description value))%nat /\
  (now < v_deadline value)%Z /\
  v_budget value = budget body /\
  v_currency value = or_default (currency body) "USD".
Proof.
  unfold createTenderSchema, joi_string_min, joi_string,
    joi_date_greater_now, check.
  intros H.
  repeat match type of H with
         | context [match ?x with _ => _ end] =>
             destruct x eqn:?; try discriminate H
         end.
  all: injection H as <-; simpl.
  all: repeat match goal with
              | E : context [if ?b then _ else _] |- _ =>
                  destruct b eqn:?; cbv beta iota in E; try discriminate E
              end.
  all: repeat split;
    try (apply Nat.leb_le; assumption);
    try (apply Z.ltb_lt; assumption).
Qed.

(** X9.  A tender created by POST /tenders under an id the store does not
    hold yet belongs to the caller's company, carries the validated title
    (5 characters or more), description (20 or more), budget and deadline
    (after the clock), and the currency USD when none is given; fetching
    that id right away returns this very tender, and the company's own
    listing contains it. *)
Theorem created_tender_is_fetched :
  forall now fresh user body value company db,
    createTenderSchema now body = inr value ->
    if_truthy (companyId user) = Some company ->
    absent fresh db ->
    exists row db',
      post_tenders now fresh (Bearer user) body db = (Success 201 row, db') /\
      tenders db' = (tenders db ++ [row])%list /\
      t_id row = fresh /\
      t_company_id row = company /\
      t_title row = v_title value /\
      t_description row = v_description value /\
      t_budget row = budget body /\
      t_deadline row = v_deadline value /\
      t_currency row = or_default (currency body) "USD" /\
      (5 <= String.length (t_title row))%nat /\
      (20 <= String.length (t_description row))%nat /\
      (now < t_deadline row)%Z /\
      (exists owner,
          get_tender fresh db'
          = (Success 200
               {| detail := (row, owner);
                  applicationCount :=
                    Z.of_nat
                      (length (filter (fun a => a_tender_id a =? fresh)
                                 (applications db))) |},
             db')) /\
      (exists mine,
          get_my_tenders (Bearer user) db' = (Success 200 mine, db') /\
          In row mine).
Proof.
  intros now fresh user body value company db Hv Hc Habs.
  destruct (validated_tender now body value Hv) as [Ht [Hd [Hdl [Hb Hcur]]]].
  eexists. eexists. split.
  { unfold post_tenders, authenticateToken. rewrite Hv, Hc. reflexivity. }
  simpl. repeat (split; [first [reflexivity | assumption]|]).
  split.
  - unfold get_tender. simpl. rewrite left_join_app, filter_app.
    rewrite (filter_none _ (left_join _ (tenders db) (companies db))).
    + simpl.
      destruct (filter (fun c => company =? co_id c) (companies db));
        simpl; rewrite String.eqb_refl; simpl; eexists; reflexivity.
    + intros r Hr. apply left_join_from in Hr.
      apply String.eqb_neq. exact (Habs _ Hr).
  - unfold get_my_tenders, authenticateToken. rewrite Hc. simpl.
    eexists. split; [reflexivity|].
    apply order_by_in. apply filter_In. split.
    + apply in_or_app. right. left. reflexivity.
    + simpl. apply String.eqb_refl.
Qed.

Lemma get_tender_found tender db t :
  In t (tenders db) -> t_id t = tender ->
  exists r,
    first (filter (fun r : tender_row * option company_row =>
                     t_id (fst r) =? tender)
             (left_join (fun t c => t_company_id t =? co_id c)
                (tenders db) (companies db))) = Some r.
Proof.
  intros Ht Hid.
  destruct (left_join_keeps (fun t0 c => t_company_id t0 =? co_id c)
              (tenders db) (companies db) t Ht) as [oc Hin].
  apply (first_filter_found _ _ (t, oc) Hin).
  simpl. rewrite Hid. apply String.eqb_refl.
Qed.

(** X10.  GET /tenders/:id answers 404 exactly when no tender has the id;
    otherwise it returns a stored tender with that id, joined with a
    company only if that company is the tender's, together with the number
    of applications filed under the id. *)
Theorem tender_fetched_by_id :
  forall tender db,
    (absent tender db ->
     get_tender tender db = (Failure 404 (Text "Tender not found"), db)) /\
    ((exists t, In t (tenders db) /\ t_id t = tender) ->
     exists d,
       get_tender tender db = (Success 200 d, db) /\
       In (fst (detail d)) (tenders db) /\
       t_id (fst (detail d)) = tender /\
       match snd (detail d) with
       | Some c => In c (companies db) /\
                   co_id c = t_company_id (fst (detail d))
       | None => forall c, In c (companies db) ->
                           co_id c <> t_company_id (fst (detail d))
       end /\
       applicationCount d
       = Z.of_nat (length (filter (fun a => a_tender_id a =? tender)
                             (applications db)))).
Proof.
  intros tender db. split.
  - intros Habs. unfold get_tender.
    rewrite (proj2 (first_filter_none _ _)); [reflexivity|].
    intros r Hr. apply left_join_from in Hr.
    apply String.eqb_neq. exact (Habs _ Hr).
  - intros [t [Ht Hid]]. unfold get_tender.
    destruct (get_tender_found tender db t Ht Hid) as [[t' oc] Hr].
    rewrite Hr. eexists. split; [reflexivity|]. simpl.
    apply first_filter_some in Hr. destruct Hr as [Hin Hid'].
    apply in_left_join in Hin. destruct Hin as [Ht' Hoc].
    split; [exact Ht'|]. split; [apply String.eqb_eq; exact Hid'|].
    split; [|reflexivity].
    destruct oc as [c|].
    + destruct Hoc as [Hc Hon]. split; [exact Hc|].
      apply String.eqb_eq in Hon. auto.
    + intros c Hc Heq. specialize (Hoc c Hc).
      rewrite Heq, String.eqb_refl in Hoc. discriminate.
Qed.

(** X11.  The application count of a tender follows the ledger: after any
    POST /applications, a tender that could be fetched before is fetched
    with the same row, and its count has grown by one exactly when the
    submission was accepted (201) for that tender, and not at all
    otherwise. *)
Theorem application_count_follows_ledger :
  forall guid now fresh c body tender db d,
    get_tender tender db = (Success 200 d, db) ->
    let out := Applications.post_applications guid now fresh c body db in
    exists d',
      get_tender tender (snd out) = (Success 200 d', snd out) /\
      detail d' = detail d /\
      applicationCount d'
      = (applicationCount d
         + match fst out with
           | Success _ row =>
               if (a_tender_id row =? tender)%string then 1 else 0
           | Failure _ _ => 0
           end)%Z.
Proof.
  intros guid now fresh c body tender db d Hd out. subst out.
  destruct (ApplicationsMore.submission_outcomes guid now fresh c body db)
    as [[code [error ->]] | [row ->]]; simpl.
  - exists d. split; [exact Hd|]. split; [reflexivity|]. lia.
  - unfold get_tender in *. simpl.
    destruct (first _) as [r|]; [|discriminate].
    injection Hd as <-. eexists. split; [reflexivity|]. simpl.
    split; [reflexivity|].
    rewrite filter_app, length_app. simpl.
    destruct (a_tender_id row =? tender); simpl; lia.
Qed.





Lemma same_tenders_refl tender ts : same_tenders_but tender ts ts.
Proof.
  unfold same_tenders_but. induction ts as [|t ts IH]; constructor.
  - repeat split.
  - exact IH.
Qed.

Lemma same_tenders_update tender value now ts :
  same_tenders_but tender ts (map (update_tender tender value now) ts).
Proof.
  unfold same_tenders_but. induction ts as [|t ts IH]; simpl; constructor.
  - unfold update_tender. destruct (t_id t =? tender) eqn:E; simpl.
    + repeat split. intros Hne. apply String.eqb_eq in E. contradiction.
    + repeat split.
  - exact IH.
Qed.

(** X13.  PUT /tenders/:id never creates, deletes or hands over a tender:
    whatever the request, the tenders table keeps its rows one for one, no
    row changes its id, its owning company or its creation stamp, rows
    with another id are untouched, and so are the other tables. *)
Theorem update_keeps_identity_and_owner :
  forall now c tender body db,
    let db' := snd (put_tender now c tender body db) in
    same_tenders_but tender (tenders db) (tenders db') /\
    users db' = users db /\
    companies db' = companies db /\
    goods_services db' = goods_services db /\
    applications db' = applications db.
Proof.
  intros now c tender body db db'. subst db'.
  unfold put_tender, authenticateToken, respond.
  destruct c as [| |user]; simpl;
    try (split; [apply same_tenders_refl | repeat split]).
  destruct (updateTenderSchema now body) as [e|value]; simpl;
    try (split; [apply same_tenders_refl | repeat split]).
  destruct (if_truthy (companyId user)) as [company|]; simpl;
    try (split; [apply same_tenders_refl | repeat split]).
  destruct (first _) as [found|]; simpl;
    try (split; [apply same_tenders_refl | repeat split]).
  split; [apply same_tenders_update | repeat split].
Qed.

Lemma latest_first_total : total_order latest_first.
Proof.
  intros x y. unfold latest_first.
  destruct (Z.le_ge_cases (t_created_at y) (t_created_at x))
    as [H|H]; [left | right]; apply Z.leb_le; exact H.
Qed.

(** X14.  GET /tenders/company/mine returns the tenders of the caller's
    company, whatever their status: every one of them and no tender of
    another company, latest creation first. *)
Theorem my_tenders_are_mine :
  forall user company db,
    if_truthy (companyId user) = Some company ->
    exists mine,
      get_my_tenders (Bearer user) db = (Success 200 mine, db) /\
      (forall t, In t mine <-> In t (tenders db) /\ t_company_id t = company) /\
      ordered latest_first mine.
Proof.
  intros user company db Hc. unfold get_my_tenders, authenticateToken.
  rewrite Hc. eexists. split; [reflexivity|]. split.
  - intros t. rewrite order_by_in, filter_In, String.eqb_eq. reflexivity.
  - apply order_by_ordered. apply latest_first_total.
Qed.

(** X20.  Without a search term, every tender on a successful page of
    GET /tenders is a stored tender with the status asked for, or with
    the status open when none is asked for. *)
Theorem listing_without_search_keeps_status :
  forall q db pg,
    if_truthy (q_search q) = None ->
    fst (get_tenders q db) = Success 200 pg ->
    forall r, In r (listed pg) ->
              In (fst r) (tenders db) /\
              t_status (fst r) = or_default (if_truthy (q_status q)) "open".
Proof.
  intros q db pg Hs H r Hr. split.
  - unfold get_tenders in H.
    destruct (limit_offset _ _ _) as [rows|] eqn:E; simpl in H;
      [|discriminate].
    injection H as <-. simpl in Hr.
    apply (limit_offset_in _ _ _ _ r E) in Hr.
    apply order_by_in in Hr. apply filter_In in Hr.
    apply left_join_from with (1 := proj1 Hr).
  - exact (TendersProps.listing_without_search_has_status q db pg Hs H r Hr).
Qed.

End TendersMore.

(** ** Further properties of routes/auth *)

Module AuthMore.
Import Auth.

Lemma validated_registration email_ok body value :
  registerSchema email_ok body = inr value ->
  email_ok (v_email value) = true /\
  v_email value <> "" /\
  (8 <= String.length (v_password value))%nat /\
  (2 <= String.length (v_companyName value))%nat /\
  (2 <= String.length (v_industry value))%nat.
Proof.
  unfold registerSchema, joi_string_min, joi_string, check.
  intros H.
  repeat match type of H with
         | context [match ?x with _ => _ end] =>
             destruct x eqn:?; try discriminate H
         end.
  all: injection H as <-; simpl.
  all: repeat match goal with
              | E : context [if ?b then _ else _] |- _ =>
                  destruct b eqn:?; cbv beta iota in E; try discriminate E
              end.
  all: repeat split; try assumption;
    try (apply Nat.leb_le; assumption).
  all: intros ->; simpl in *; discriminate.
Qed.

Lemma email_not_taken email db :
  (forall u, In u (users db) -> user_email u <> email) ->
  first (filter (fun u => user_email u =? email) (users db)) = None.
Proof.
  intros H. apply first_filter_none. intros u Hu.
  apply String.eqb_neq. exact (H u Hu).
Qed.

(** X15.  Registration keeps e-mails unique: a request whose e-mail is
    already held by an account is answered 409 and changes nothing, and
    whatever the request and the faults of the store, no two accounts
    share an e-mail afterwards if none did before. *)
Theorem registration_keeps_emails_unique :
  forall email_ok bcrypt_hash jwt_sign now fresh_user fresh_company f body db,
    (forall value u,
        registerSchema email_ok body = inr value ->
        In u (users db) -> user_email u = v_email value ->
        post_register email_ok bcrypt_hash jwt_sign now fresh_user
          fresh_company f body db
        = (Failure 409 (Text "User with this email already exists"), db)) /\
    (emails_unique db ->
     emails_unique
       (snd (post_register email_ok bcrypt_hash jwt_sign now fresh_user
               fresh_company f body db))).
Proof.
  intros email_ok bcrypt_hash jwt_sign now fresh_user fresh_company f body db.
  split.
  - intros value u Hv Hu He. unfold post_register. rewrite Hv.
    destruct (first_filter_found (fun u0 => user_email u0 =? v_email value)
                (users db) u Hu) as [x Hx].
    { rewrite He. apply String.eqb_refl. }
    rewrite Hx. reflexivity.
  - intros Huniq. unfold post_register.
    destruct (registerSchema email_ok body) as [e|value]; simpl; auto.
    destruct (first _) as [existing|] eqn:E; simpl; auto.
    unfold transaction, insert_user, insert_company.
    destruct (insert_user_fails f); simpl; auto.
    destruct (insert_company_fails f); simpl; auto.
    destruct (commit_fails f); simpl; auto.
    unfold emails_unique in *. simpl. rewrite map_app. simpl.
    apply NoDup_app; [exact Huniq | repeat constructor; intros [] |].
    intros x Hx [<-|[]]. apply in_map_iff in Hx.
    destruct Hx as [u [He Hu]]. rewrite first_filter_none in E.
    specialize (E u Hu). rewrite He, String.eqb_refl in E. discriminate.
Qed.

Lemma find_account_skips email db u c :
  (forall u0, In u0 (users db) -> user_email u0 <> email) ->
  (forall c0, In c0 (companies db) -> co_user_id c0 <> user_id u) ->
  user_email u = email -> co_user_id c = user_id u ->
  find_account email
    {| users := users db ++ [u]; companies := companies db ++ [c];
       goods_services := goods_services db; tenders := tenders db;
       applications := applications db |}
  = Some (u, Some c).
Proof.
  intros Hnew Hfresh He Hc. unfold find_account. simpl.
  unfold left_join. rewrite flat_map_app, filter_app.
  assert (forall (l : list (user_row * option company_row)),
             (forall r, In r l -> user_email (fst r) <> email) ->
             filter (fun r : user_row * option company_row =>
                       user_email (fst r) =? email) l = []) as Hnone.
  { intros l Hl. induction l as [|r l IH]; simpl; [reflexivity|].
    assert ((user_email (fst r) =? email) = false) as ->.
    { apply String.eqb_neq. apply Hl. left. reflexivity. }
    apply IH. intros r' Hr'. apply Hl. right. exact Hr'. }
  rewrite Hnone.
  - cbn [flat_map app]. rewrite app_nil_r.
    rewrite (filter_app (fun c0 => user_id u =? co_user_id c0)
               (companies db) [c]).
    assert (filter (fun c0 => user_id u =? co_user_id c0) (companies db) = [])
      as ->.
    { induction (companies db) as [|c0 cs IH]; simpl; [reflexivity|].
      assert ((user_id u =? co_user_id c0) = false) as ->.
      { apply String.eqb_neq. intros Heq. apply (Hfresh c0).
        - left. reflexivity.
        - auto. }
      apply IH. intros c1 Hc1. apply Hfresh. right. exact Hc1. }
    simpl. rewrite Hc, String.eqb_refl. simpl.
    rewrite He, String.eqb_refl. reflexivity.
  - intros r Hr. apply in_flat_map in Hr. destruct Hr as [u0 [Hu0 Hr]].
    assert (fst r = u0) as ->; [|apply Hnew; exact Hu0].
    destruct (filter (fun c0 => user_id u0 =? co_user_id c0)
                (companies db ++ [c])).
    + destruct Hr as [<-|[]]. reflexivity.
    + apply in_map_iff in Hr. destruct Hr as [y [<- _]]. reflexivity.
Qed.

(** X16.  Registering and then logging in with the same e-mail and
    password opens the session of the new account.  When the e-mail is
    free, the store gives ids it has not used and performs the three
    statements, and [bcrypt.compare] accepts the hash of the password,
    registration answers 201, and the login that follows answers 200 with
    the account, the company and the token that registration returned. *)
Theorem register_then_login :
  forall email_ok bcrypt_hash bcrypt_compare jwt_sign now fresh_user
         fresh_company body value db,
    registerSchema email_ok body = inr value ->
    (forall u, In u (users db) -> user_email u <> v_email value) ->
    (forall c, In c (companies db) -> co_user_id c <> fresh_user) ->
    fresh_company <> "" ->
    bcrypt_compare (v_password value) (bcrypt_hash (v_password value) 12%nat)
    = true ->
    exists r db',
      post_register email_ok bcrypt_hash jwt_sign now fresh_user fresh_company
        {| insert_user_fails := false; insert_company_fails := false;
           commit_fails := false |} body db
      = (Success 201 r, db') /\
      account r = (fresh_user, v_email value) /\
      co_id (company r) = fresh_company /\
      post_login email_ok bcrypt_compare jwt_sign
        {| login_email := Some (v_email value);
           login_password := Some (v_password value);
           login_extra := [] |} db'
      = (Success 200
           {| session_token := token r;
              session_account := account r;
              session_company :=
                Some {| summary_id := co_id (company r);
                        summary_name := co_name (company r);
                        summary_industry := co_industry (company r);
                        summary_description := co_description (company r) |} |},
         db').
Proof.
  intros email_ok bcrypt_hash bcrypt_compare jwt_sign now fresh_user
    fresh_company body value db Hv Hnew Hfresh Hid Hpw.
  destruct (validated_registration email_ok body value Hv)
    as [Hok [Hne [Hlen _]]].
  eexists. eexists. split.
  { unfold post_register. rewrite Hv.
    rewrite (email_not_taken (v_email value) db Hnew). reflexivity. }
  simpl. split; [reflexivity|]. split; [reflexivity|].
  unfold post_login.
  assert (loginSchema email_ok
            {| login_email := Some (v_email value);
               login_password := Some (v_password value);
               login_extra := [] |}
          = inr (v_email value, v_password value)) as ->.
  { unfold loginSchema, joi_string, check. simpl. rewrite Hok.
    destruct (v_email value) as [|a e]; [contradiction|]. simpl.
    destruct (v_password value) as [|b p]; [simpl in Hlen; lia|]. reflexivity. }
  unfold with_users, with_companies. simpl.
  rewrite (find_account_skips (v_email value) db
             {| user_id := fresh_user; user_email := v_email value;
                user_password_hash := bcrypt_hash (v_password value) 12%nat;
                user_created_at := now |}
             {| co_id := fresh_company; co_user_id := fresh_user;
                co_name := v_companyName value;
                co_industry := Some (v_industry value);
                co_description := v_description value;
                co_logo_url := None; co_created_at := now |}
             Hnew Hfresh eq_refl eq_refl).
  simpl. rewrite Hpw. simpl.
  destruct fresh_company as [|a s]; [contradiction|]. reflexivity.
Qed.

Lemma unique_by_key {A B} (key : A -> B) (rows : list A) (x y : A) :
  NoDup (map key rows) -> In x rows -> In y rows -> key x = key y -> x = y.
Proof.
  induction rows as [|z rows IH]; simpl; intros Hnd Hx Hy Hk; [destruct Hx|].
  inversion Hnd as [|? ? Hnotin Hnd']; subst.
  destruct Hx as [<-|Hx], Hy as [<-|Hy]; auto.
  - exfalso. apply Hnotin. rewrite Hk. apply in_map. exact Hy.
  - exfalso. apply Hnotin. rewrite <- Hk. apply in_map. exact Hx.
Qed.

Lemma find_account_some email db r :
  find_account email db = Some r ->
  In (fst r) (users db) /\ user_email (fst r) = email /\
  match snd r with
  | Some c => In c (companies db) /\ co_user_id c = user_id (fst r)
  | None => True
  end.
Proof.
  unfold find_account. intros H. apply first_filter_some in H.
  destruct H as [Hin He]. destruct r as [u oc]. simpl in *.
  apply in_left_join in Hin. destruct Hin as [Hu Hoc].
  split; [exact Hu|]. split; [apply String.eqb_eq; exact He|].
  destruct oc as [c|]; [|exact I].
  destruct Hoc as [Hc Hon]. apply String.eqb_eq in Hon. auto.
Qed.

Lemma find_account_none email db :
  (forall u, In u (users db) -> user_email u <> email) ->
  find_account email db = None.
Proof.
  intros H. unfold find_account. apply first_filter_none.
  intros r Hr. apply left_join_from in Hr.
  apply String.eqb_neq. exact (H _ Hr).
Qed.

(** X17.  A failed login does not tell whether the e-mail is registered:
    with unique e-mails, a well-formed login for an e-mail that no account
    holds and one for a registered e-mail with a password that
    [bcrypt.compare] refuses get the same 401 "Invalid email or password",
    and the store is unchanged. *)
Theorem login_failures_are_alike :
  forall email_ok bcrypt_compare jwt_sign body email password db,
    loginSchema email_ok body = inr (email, password) ->
    emails_unique db ->
    ((forall u, In u (users db) -> user_email u <> email) ->
     post_login email_ok bcrypt_compare jwt_sign body db
     = (Failure 401 (Text "Invalid email or password"), db)) /\
    (forall u,
        In u (users db) -> user_email u = email ->
        bcrypt_compare password (user_password_hash u) = false ->
        post_login email_ok bcrypt_compare jwt_sign body db
        = (Failure 401 (Text "Invalid email or password"), db)).
Proof.
  intros email_ok bcrypt_compare jwt_sign body email password db Hv Huniq.
  unfold post_login. rewrite Hv. split.
  - intros Hnone. rewrite (find_account_none email db Hnone). reflexivity.
  - intros u Hu He Hbad.
    destruct (find_account email db) as [[u' oc]|] eqn:E; [|reflexivity].
    apply find_account_some in E. simpl in E. destruct E as [Hu' [He' _]].
    assert (u' = u) as ->.
    { apply (unique_by_key user_email (users db)); try assumption.
      congruence. }
    rewrite Hbad. reflexivity.
Qed.

Lemma validated_login email_ok body email password :
  loginSchema email_ok body = inr (email, password) ->
  login_email body = Some email /\ login_password body = Some password.
Proof.
  unfold loginSchema, required. intros H.
  destruct (login_email body) as [e|]; [|discriminate H].
  destruct (login_password body) as [p|].
  - cbv beta iota in H.
    repeat match type of H with
           | context [match ?x with _ => _ end] =>
               destruct x eqn:?; try discriminate H
           end.
    injection H as <- <-.
    repeat match goal with
           | E : valid _ = inr _ |- _ => injection E as ->
           end.
    split; reflexivity.
  - exfalso.
    repeat match type of H with
           | context [match ?x with _ => _ end] =>
               destruct x eqn:?; try discriminate H
           end.
Qed.

(** X18.  POST /auth/login opens a session only for a stored account
    whose e-mail is the one sent and whose password hash
    [bcrypt.compare] accepts for the password sent; the session names that
    account, and its company, when there is one, is a stored company of
    that account. *)
Theorem login_needs_matching_password :
  forall email_ok bcrypt_compare jwt_sign body db s,
    fst (post_login email_ok bcrypt_compare jwt_sign body db) = Success 200 s ->
    exists email password u,
      login_email body = Some email /\
      login_password body = Some password /\
      In u (users db) /\
      user_email u = email /\
      bcrypt_compare password (user_password_hash u) = true /\
      session_account s = (user_id u, email) /\
      match session_company s with
      | Some co =>
          exists c, In c (companies db) /\ co_user_id c = user_id u /\
                    summary_id co = co_id c /\ summary_name co = co_name c
      | None => True
      end.
Proof.
  intros email_ok bcrypt_compare jwt_sign body db s. unfold post_login.
  destruct (loginSchema email_ok body) as [e|[email password]] eqn:Hv;
    simpl; [discriminate|].
  destruct (find_account email db) as [[u oc]|] eqn:E; simpl; [|discriminate].
  destruct (bcrypt_compare password (user_password_hash u)) eqn:Hpw;
    simpl; [|discriminate].
  intros H. injection H as <-. simpl.
  apply validated_login in Hv. destruct Hv as [He Hp].
  apply find_account_some in E. simpl in E. destruct E as [Hu [Hmail Hoc]].
  exists email, password, u. repeat split; try assumption.
  - rewrite Hmail. reflexivity.
  - destruct oc as [c|]; [|exact I].
    unfold truthy. destruct (negb (String.length (co_id c) =? 0)%nat);
      [|exact I].
    exists c. simpl. destruct Hoc as [Hc Hown]. auto.
Qed.

End AuthMore.

(** ** Further properties of routes/search *)

Module SearchMore.
Import Search.

(** A clause built with [.where] only is the conjunction of its
    conditions. *)
Lemma disjuncts_all_and {R} (cs : list (clause R)) (acc : bool) (r : R) :
  Forall (fun c => fst c = AND) cs ->
  disjuncts acc cs r = acc && forallb (fun c => snd c r) cs.
Proof.
  revert acc. induction cs as [|[k p] cs IH]; intros acc Hand; simpl.
  - rewrite andb_true_r. reflexivity.
  - inversion Hand as [|? ? Hk Hrest]; subst. simpl in Hk. subst k.
    rewrite (IH _ Hrest). rewrite andb_assoc. reflexivity.
Qed.

Lemma sql_where_all_and {R} (cs : list (clause R)) (r : R) :
  Forall (fun c => fst c = AND) cs ->
  sql_where cs r = forallb (fun c => snd c r) cs.
Proof.
  destruct cs as [|[k p] cs]; intros Hand; simpl; [reflexivity|].
  inversion Hand; subst. apply disjuncts_all_and. assumption.
Qed.





Lemma insert_by_nodup {A} (le : A -> A -> bool) (x : A) (rows : list A) :
  ~ In x rows -> NoDup rows -> NoDup (insert_by le x rows).
Proof.
  induction rows as [|y rows IH]; simpl; intros Hx Hnd.
  - constructor; [intros [] | constructor].
  - destruct (le x y).
    + constructor; assumption.
    + inversion Hnd as [|? ? Hy Hnd']; subst. constructor.
      * rewrite insert_by_in. intros [->|H]; [apply Hx; left; reflexivity|].
        contradiction.
      * apply IH; [|exact Hnd']. intros H. apply Hx. right. exact H.
Qed.

Lemma order_by_nodup {A} (le : A -> A -> bool) (rows : list A) :
  NoDup rows -> NoDup (order_by le rows).
Proof.
  unfold order_by. induction rows as [|x rows IH]; simpl; intros Hnd.
  - constructor.
  - inversion Hnd as [|? ? Hx Hnd']; subst.
    apply insert_by_nodup; [|apply IH; exact Hnd'].
    intros H. apply Hx. apply (order_by_in le x rows). exact H.
Qed.





(** X22.  GET /search/industries lists every industry some company has,
    each once, in ascending order, and nothing else. *)
Theorem industries_are_distinct_and_ordered :
  forall db,
    exists industries,
      get_industries db = (Success 200 industries, db) /\
      NoDup industries /\
      ordered String.leb industries /\
      (forall i, In i industries <->
                 exists c, In c (companies db) /\ co_industry c = Some i).
Proof.
  intros db. unfold get_industries. eexists. split; [reflexivity|].
  split; [|split].
  - apply order_by_nodup. apply NoDup_nodup.
  - apply order_by_ordered. intros x y. apply String.leb_total.
  - intros i. rewrite order_by_in, nodup_In, in_flat_map. split.
    + intros [c [Hc Hi]]. exists c. split; [exact Hc|].
      destruct (co_industry c) as [j|]; [|destruct Hi].
      destruct Hi as [->|[]]. reflexivity.
    + intros [c [Hc Hi]]. exists c. split; [exact Hc|].
      rewrite Hi. left. reflexivity.
Qed.

Lemma most_used_first_total : total_order most_used_first.
Proof.
  intros x y. unfold most_used_first.
  destruct (Nat.le_ge_cases (snd y) (snd x)) as [H|H];
    [left | right]; apply Nat.leb_le; exact H.
Qed.

(** X23.  GET /search/suggestions gives at most ten suggestions.  For
    [type=companies] they are distinct categories of stored goods and
    services, the first ten of the categories in the order of decreasing
    use; for any other type they are titles of stored tenders whose status
    is open. *)
Theorem suggestions_are_few_and_sourced :
  forall type db,
    exists suggestions,
      get_suggestions type db = (Success 200 suggestions, db) /\
      (length suggestions <= 10)%nat /\
      (type = Some "companies" ->
       NoDup suggestions /\
       (forall k, In k suggestions ->
                  exists g, In g (goods_services db) /\ gs_category g = k) /\
       suggestions
       = map fst (firstn 10 (order_by most_used_first (category_counts db))) /\
       ordered most_used_first
         (order_by most_used_first (category_counts db))) /\
      (type <> Some "companies" ->
       forall k, In k suggestions ->
                 exists t, In t (tenders db) /\ t_status t = "open" /\
                           k = Some (t_title t)).
Proof.
  intros type db. unfold get_suggestions.
  destruct (match type with
            | Some t => t =? "companies"
            | None => false
            end) eqn:Et.
  - eexists. split; [reflexivity|]. split; [|split].
    + rewrite length_map. apply firstn_le_length.
    + intros _. split; [|split; [|split; [reflexivity|]]].
      * assert (NoDup (map fst (order_by most_used_first (category_counts db))))
          as Hnd.
        { assert (forall l : list (option string * nat),
                     NoDup (map fst l) ->
                     NoDup (map fst (order_by most_used_first l))) as Hgen.
          { intros l Hl.
            assert (forall x rows,
                       ~ In (fst x) (map fst rows) -> NoDup (map fst rows) ->
                       NoDup (map fst (insert_by most_used_first x rows)))
              as Hins.
            { intros x rows. induction rows as [|y rows IH]; simpl;
                intros Hx Hrows.
              - constructor; [intros [] | constructor].
              - destruct (most_used_first x y); simpl.
                + constructor; assumption.
                + inversion Hrows as [|? ? Hy Hrows']; subst. constructor.
                  * intros Hin. apply in_map_iff in Hin.
                    destruct Hin as [z [Hz Hin]].
                    apply insert_by_in in Hin. destruct Hin as [->|Hin].
                    -- apply Hx. left. auto.
                    -- apply Hy. rewrite <- Hz. apply in_map. exact Hin.
                  * apply IH; [|exact Hrows'].
                    intros Hin. apply Hx. right. exact Hin. }
            unfold order_by. induction l as [|x l IH]; simpl.
            - constructor.
            - inversion Hl as [|? ? Hx Hl']; subst.
              apply Hins; [|apply IH; exact Hl'].
              intros Hin. apply Hx. apply in_map_iff in Hin.
              destruct Hin as [z [Hz Hin]]. rewrite <- Hz.
              apply in_map. apply (order_by_in most_used_first z l). exact Hin. }
          apply Hgen. unfold category_counts. rewrite map_map. simpl.
          rewrite map_id. apply NoDup_nodup. }
        rewrite <- (firstn_skipn 10
                      (order_by most_used_first (category_counts db))) in Hnd.
        rewrite map_app in Hnd.
        apply NoDup_app_remove_r in Hnd. exact Hnd.
      * intros k Hk. apply in_map_iff in Hk. destruct Hk as [[k' n] [<- Hk]].
        assert (In (k', n) (order_by most_used_first (category_counts db)))
          as Hin.
        { rewrite <- (firstn_skipn 10
                          (order_by most_used_first (category_counts db))).
          apply in_or_app. left. exact Hk. }
        apply order_by_in in Hin. unfold category_counts in Hin.
        apply in_map_iff in Hin. destruct Hin as [k'' [Heq Hin]].
        injection Heq as -> _. apply nodup_In in Hin.
        apply in_map_iff in Hin. destruct Hin as [g [Hg Hin]].
        exists g. split; [exact Hin | exact Hg].
      * apply order_by_ordered, most_used_first_total.
    + intros Hne. exfalso. apply Hne. destruct type as [t|]; [|discriminate].
      apply String.eqb_eq in Et. rewrite Et. reflexivity.
  - eexists. split; [reflexivity|]. split; [|split].
    + rewrite length_map. apply firstn_le_length.
    + intros ->. simpl in Et. discriminate.
    + intros _ k Hk. apply in_map_iff in Hk. destruct Hk as [t [<- Ht]].
      assert (In t (order_by recent_first
                      (filter (fun t0 => t_status t0 =? "open") (tenders db))))
        as Hin.
      { rewrite <- (firstn_skipn 10
                        (order_by recent_first
                           (filter (fun t0 => t_status t0 =? "open")
                              (tenders db)))).
        apply in_or_app. left. exact Ht. }
      apply order_by_in in Hin. apply filter_In in Hin.
      destruct Hin as [Hstored Hopen]. exists t.
      split; [exact Hstored|]. split; [|reflexivity].
      apply String.eqb_eq. exact Hopen.
Qed.

End SearchMore.

(** ** The further properties at work *)

Module Instances.

Lemma accepted_then_conflict_witness :
  exists row,
    fst (Applications.post_applications Scenario.guid 2000
           Scenario.application_1 (Bearer Scenario.bidder_B)
           Scenario.apply_to_T Cases.fresh_market)
    = Success 201 row /\
    a_status row = "submitted".
Proof.
  destruct (ApplicationsMore.accepted_then_conflict Scenario.guid
              2000%Z 2000%Z Scenario.application_1 Scenario.application_2
              Scenario.bidder_B Scenario.apply_to_T _ Scenario.company_B
              Cases.open_tender Cases.fresh_market
              eq_refl eq_refl eq_refl eq_refl)
    as [row [Hpost [_ [_ [_ [_ [_ [Hst _]]]]]]]].
  - simpl. lia.
  - simpl. lia.
  - intros [a [[] _]].
  - exists row. rewrite Hpost. split; [reflexivity | exact Hst].
Defined.

Lemma accepted_only_on_open_tender_witness :
  exists tender,
    In tender (tenders Cases.fresh_market) /\ t_status tender = "open".
Proof.
  destruct (ApplicationsMore.accepted_only_on_open_tender Scenario.guid
              2000%Z Scenario.application_1 (Bearer Scenario.bidder_B)
              Scenario.apply_to_T Cases.fresh_market _ eq_refl)
    as [user [tender [_ [_ [Hin [_ [Hopen _]]]]]]].
  exists tender. split; assumption.
Defined.

Lemma status_update_needs_tender_owner_witness :
  Applications.patch_application_status 1000 (Bearer Scenario.bidder_B)
    Scenario.application_1 (Scenario.set_to "accepted") Cases.applied_market
  = (Failure 404 (Text "Application not found or access denied"),
     Cases.applied_market).
Proof.
  apply (ApplicationsMore.status_update_needs_tender_owner 1000%Z
           Scenario.bidder_B Scenario.company_B Scenario.application_1
           (Scenario.set_to "accepted") "accepted" Cases.applied_market
           eq_refl eq_refl).
  intros a t [<-|[]] _ [<-|[]] _. simpl. discriminate.
Defined.

Lemma status_update_changes_status_only_witness :
  one_per_pair
    (applications
       (snd (Applications.patch_application_status 1000
               (Bearer Scenario.owner_A) Scenario.application_1
               (Scenario.set_to "accepted") Cases.applied_market))).
Proof.
  apply (ApplicationsMore.status_update_changes_status_only 1000%Z
           (Bearer Scenario.owner_A) Scenario.application_1
           (Scenario.set_to "accepted") Cases.applied_market).
  unfold one_per_pair. simpl. constructor; [intros [] | constructor].
Defined.

Lemma tender_applications_for_owner_only_witness :
  exists rows,
    Applications.get_tender_applications (Bearer Scenario.owner_A)
      Scenario.tender_T Cases.applied_market
    = (Success 200 rows, Cases.applied_market) /\
    exists r, In r rows /\ fst r = Scenario.application_of_B "submitted".
Proof.
  destruct (proj2 (ApplicationsMore.tender_applications_for_owner_only
                     Scenario.owner_A Scenario.company_A Scenario.tender_T
                     Cases.applied_market eq_refl)
              Cases.open_tender (or_introl eq_refl) eq_refl eq_refl)
    as [rows [Hget [_ [Hall _]]]].
  exists rows. split; [exact Hget|].
  apply Hall; [left; reflexivity | reflexivity].
Defined.

Lemma my_applications_are_mine_witness :
  exists rows,
    Applications.get_my_applications (Bearer Scenario.bidder_B)
      Cases.applied_market
    = (Success 200 rows, Cases.applied_market) /\
    exists owner,
      In (Scenario.application_of_B "submitted",
          (Some Cases.open_tender, owner)) rows.
Proof.
  destruct (ApplicationsMore.my_applications_are_mine Scenario.bidder_B
              Scenario.company_B Cases.applied_market eq_refl)
    as [rows [Hget [_ [_ [Hjoined _]]]]].
  exists rows. split; [exact Hget|].
  apply Hjoined.
  - left. reflexivity.
  - reflexivity.
  - left. reflexivity.
  - reflexivity.
Defined.

Lemma application_visible_to_its_parties_witness :
  (exists r,
      Applications.get_application (Bearer Scenario.owner_A)
        Scenario.application_1 Cases.applied_market
      = (Success 200 r, Cases.applied_market)) /\
  Applications.get_application
    (Bearer {| payload_id := "user-c"; payload_email := "c@x.com";
               companyId := Some "company-c" |})
    Scenario.application_1 Cases.applied_market
  = (Failure 404 (Text "Application not found or access denied"),
     Cases.applied_market).
Proof.
  split.
  - apply (proj1 (proj2 (ApplicationsMore.application_visible_to_its_parties
                           Scenario.owner_A Scenario.company_A
                           Scenario.application_1 Cases.applied_market
                           eq_refl))).
    exists (Scenario.application_of_B "submitted").
    split; [left; reflexivity|]. split; [reflexivity|].
    right. exists Cases.open_tender.
    split; [left; reflexivity|]. split; reflexivity.
  - apply (proj2 (proj2 (ApplicationsMore.application_visible_to_its_parties
                           {| payload_id := "user-c";
                              payload_email := "c@x.com";
                              companyId := Some "company-c" |}
                           "company-c" Scenario.application_1
                           Cases.applied_market eq_refl))).
    intros a [<-|[]] _. split; [simpl; discriminate|].
    intros t [<-|[]] _. simpl. discriminate.
Defined.

Lemma created_tender_is_fetched_witness :
  exists row db',
    Tenders.post_tenders 1000 Scenario.tender_T (Bearer Scenario.owner_A)
      (Scenario.new_tender None []) (Scenario.store [] [])
    = (Success 201 row, db') /\
    exists owner count,
      Tenders.get_tender Scenario.tender_T db'
      = (Success 200 {| Tenders.detail := (row, owner);
                        Tenders.applicationCount := count |}, db').
Proof.
  destruct (TendersMore.created_tender_is_fetched 1000%Z Scenario.tender_T
              Scenario.owner_A (Scenario.new_tender None []) _
              Scenario.company_A (Scenario.store [] []) eq_refl eq_refl)
    as [row [db' [Hpost H]]].
  - intros t [].
  - exists row, db'. split; [exact Hpost|].
    destruct H as [_ [_ [_ [_ [_ [_ [_ [_ [_ [_ [_ [[owner Hget] _]]]]]]]]]]]].
    exists owner. eexists. exact Hget.
Defined.

Lemma tender_fetched_by_id_witness :
  (exists d,
      Tenders.get_tender Scenario.tender_T Cases.applied_market
      = (Success 200 d, Cases.applied_market) /\
      Tenders.applicationCount d = 1%Z) /\
  Tenders.get_tender Scenario.tender_T (Scenario.store [] [])
  = (Failure 404 (Text "Tender not found"), Scenario.store [] []).
Proof.
  split.
  - destruct (proj2 (TendersMore.tender_fetched_by_id Scenario.tender_T
                       Cases.applied_market))
      as [d [Hget [_ [_ [_ Hcount]]]]].
    + exists Cases.open_tender. split; [left; reflexivity | reflexivity].
    + exists d. split; [exact Hget | exact Hcount].
  - apply (proj1 (TendersMore.tender_fetched_by_id Scenario.tender_T
                    (Scenario.store [] []))).
    intros t [].
Defined.

Lemma application_count_follows_ledger_witness :
  exists d',
    Tenders.get_tender Scenario.tender_T
      (snd (Applications.post_applications Scenario.guid 1000
              Scenario.application_1 (Bearer Scenario.bidder_B)
              Scenario.apply_to_T Cases.fresh_market))
    = (Success 200 d',
       snd (Applications.post_applications Scenario.guid 1000
              Scenario.application_1 (Bearer Scenario.bidder_B)
              Scenario.apply_to_T Cases.fresh_market)) /\
    Tenders.applicationCount d' = 1%Z.
Proof.
  destruct (TendersMore.application_count_follows_ledger Scenario.guid
              1000%Z Scenario.application_1 (Bearer Scenario.bidder_B)
              Scenario.apply_to_T Scenario.tender_T Cases.fresh_market _
              eq_refl)
    as [d' [Hget [_ Hcount]]].
  exists d'. split; [exact Hget | exact Hcount].
Defined.


Lemma listing_without_search_keeps_status_witness :
  t_status (fst (Scenario.tender_with "open" 3000,
                 Some Scenario.company_row_A)) = "open".
Proof.
  apply (TendersMore.listing_without_search_keeps_status
           (Scenario.listing None None) Scenario.market _ eq_refl eq_refl
           (Scenario.tender_with "open" 3000, Some Scenario.company_row_A)).
  right. left. reflexivity.
Defined.

Lemma my_tenders_are_mine_witness :
  exists mine,
    Tenders.get_my_tenders (Bearer Scenario.owner_A) Scenario.market
    = (Success 200 mine, Scenario.market) /\
    In (Scenario.tender_with "open" 3000) mine.
Proof.
  destruct (TendersMore.my_tenders_are_mine Scenario.owner_A
              Scenario.company_A Scenario.market eq_refl)
    as [mine [Hget [Hall _]]].
  exists mine. split; [exact Hget|].
  apply Hall. split; [right; left; reflexivity | reflexivity].
Defined.

Lemma registration_keeps_emails_unique_witness :
  Auth.post_register Cases.email_ok Cases.hash Cases.sign 1000 "user-z"
    "company-z" Cases.no_faults Scenario.sign_up Cases.accounts
  = (Failure 409 (Text "User with this email already exists"),
     Cases.accounts).
Proof.
  apply (proj1 (AuthMore.registration_keeps_emails_unique Cases.email_ok
                  Cases.hash Cases.sign 1000%Z "user-z" "company-z"
                  Cases.no_faults Scenario.sign_up Cases.accounts)
           _ Cases.account_A eq_refl (or_introl eq_refl) eq_refl).
Defined.

Lemma register_then_login_witness :
  exists r db',
    Auth.post_register Cases.email_ok Cases.hash Cases.sign 1000 "user-a"
      Scenario.company_A Cases.no_faults Scenario.sign_up
      (Scenario.store [] [])
    = (Success 201 r, db') /\
    exists s,
      Auth.post_login Cases.email_ok Cases.compare Cases.sign
        (Cases.login_as "a@x.com" "correct horse") db'
      = (Success 200 s, db') /\
      Auth.session_token s = Auth.token r.
Proof.
  destruct (AuthMore.register_then_login Cases.email_ok Cases.hash
              Cases.compare Cases.sign 1000%Z "user-a" Scenario.company_A
              Scenario.sign_up _ (Scenario.store [] []) eq_refl)
    as [r [db' [Hreg [_ [_ Hlogin]]]]].
  - intros u [].
  - intros c [].
  - discriminate.
  - reflexivity.
  - exists r, db'. split; [exact Hreg|].
    eexists. split; [exact Hlogin | reflexivity].
Defined.

Lemma login_failures_are_alike_witness :
  Auth.post_login Cases.email_ok Cases.compare Cases.sign
    (Cases.login_as "a@x.com" "wrong horse") Cases.accounts
  = (Failure 401 (Text "Invalid email or password"), Cases.accounts) /\
  Auth.post_login Cases.email_ok Cases.compare Cases.sign
    (Cases.login_as "nobody@x.com" "wrong horse") Cases.accounts
  = (Failure 401 (Text "Invalid email or password"), Cases.accounts).
Proof.
  assert (emails_unique Cases.accounts) as Huniq.
  { unfold emails_unique. simpl. constructor; [intros [] | constructor]. }
  split.
  - apply (proj2 (AuthMore.login_failures_are_alike Cases.email_ok
                    Cases.compare Cases.sign
                    (Cases.login_as "a@x.com" "wrong horse")
                    "a@x.com" "wrong horse" Cases.accounts eq_refl Huniq)
             Cases.account_A (or_introl eq_refl) eq_refl eq_refl).
  - apply (proj1 (AuthMore.login_failures_are_alike Cases.email_ok
                    Cases.compare Cases.sign
                    (Cases.login_as "nobody@x.com" "wrong horse")
                    "nobody@x.com" "wrong horse" Cases.accounts eq_refl
                    Huniq)).
    intros u [<-|[]]. simpl. discriminate.
Defined.

Lemma login_needs_matching_password_witness :
  exists u,
    In u (users Cases.accounts) /\
    Cases.compare "correct horse" (user_password_hash u) = true.
Proof.
  destruct (AuthMore.login_needs_matching_password Cases.email_ok
              Cases.compare Cases.sign
              (Cases.login_as "a@x.com" "correct horse") Cases.accounts _
              eq_refl)
    as [email [password [u [He [Hp [Hu [_ [Hpw _]]]]]]]].
  injection Hp as <-. exists u. split; assumption.
Defined.



Lemma suggestions_are_few_and_sourced_witness :
  exists suggestions,
    Search.get_suggestions (Some "companies") Cases.catalogue
    = (Success 200 suggestions, Cases.catalogue) /\
    NoDup suggestions /\
    suggestions = [Some "steel"; Some "services"].
Proof.
  destruct (SearchMore.suggestions_are_few_and_sourced (Some "companies")
              Cases.catalogue)
    as [suggestions [Hget [_ [Hcompanies _]]]].
  destruct (Hcompanies eq_refl) as [Hnd [_ [Heq _]]].
  exists suggestions. split; [exact Hget|]. split; [exact Hnd|].
  rewrite Heq. reflexivity.
Defined.

End Instances.
